(** * rconbot.rcon: the RCON packet codec and client session

    A shallow embedding of [src/rconbot/rcon.py].  Byte strings are lists of
    [Byte.byte], Python integers are [Z], text is a list of Unicode code
    points.  Methods of [RCONClient] are state transformers over the client
    object that either return a value or raise; an exception leaves the
    mutated object behind, exactly as in Python. *)

From Stdlib Require Import ZArith NArith List Bool Lia.
From Stdlib Require Import Strings.Byte.
Import ListNotations.
Open Scope Z_scope.

Set Implicit Arguments.

(** ** Bytes and the integer conversions of Python's [int] *)

Definition bytes := list byte.

Definition byte_val (b : byte) : Z := Z.of_N (Byte.to_N b).

Definition byte_of (z : Z) : byte :=
  match Byte.of_N (Z.to_N (z mod 256)) with
  | Some b => b
  | None => x00
  end.

(** The exceptions the module can raise.  Every [raise ValueError(...)] of the
    source is one constructor of [Message], carrying the values its message
    is formatted with. *)
Inductive Message :=
| DataIsNotBytes
| DataIsNotStr
| TooLargeData (len : nat)
| IncorrectLength (got : nat)
| TooSmallPacket (n : Z)
| TooBigPacket (n : Z)
| IncorrectPacket (n : Z) (got : nat)
| NotZeroTerminated
| InvalidRequestID (expected got : Z)
| InvalidResponseType (expected got : Z).

Inductive Exception :=
| ValueError (msg : Message)
| TypeError
| OverflowError
| UnicodeEncodeError
| UnicodeDecodeError.

Inductive Result (A : Type) :=
| Ok (a : A)
| Raise (e : Exception).
Arguments Ok {A} a.
Arguments Raise {A} e.

Definition bindR {A B} (r : Result A) (k : A -> Result B) : Result B :=
  match r with
  | Ok a => k a
  | Raise e => Raise e
  end.

Declare Scope py_scope.
Delimit Scope py_scope with py.
Notation "x <- e ;; k" := (bindR e (fun x => k))
  (at level 61, e at next level, right associativity) : py_scope.
Open Scope py_scope.

Module PyInt.

(** The [length] low base-256 digits of [z], least significant first. *)
Fixpoint le_digits (length : nat) (z : Z) : bytes :=
  match length with
  | O => []
  | S k => byte_of z :: le_digits k (z / 256)
  end.

Fixpoint le_value (bs : bytes) : Z :=
  match bs with
  | [] => 0
  | b :: rest => byte_val b + 256 * le_value rest
  end.

(** [z.to_bytes(4, "little", signed=signed)] *)
Definition to_bytes4 (z : Z) (signed : bool) : Result bytes :=
  if signed then
    if (- 2 ^ 31 <=? z) && (z <? 2 ^ 31) then Ok (le_digits 4 z)
    else Raise OverflowError
  else
    if (0 <=? z) && (z <? 2 ^ 32) then Ok (le_digits 4 z)
    else Raise OverflowError.

(** [int.from_bytes(bs, "little", signed=signed)] *)
Definition from_bytes (bs : bytes) (signed : bool) : Z :=
  let u := le_value bs in
  let bits := 8 * Z.of_nat (length bs) in
  if signed && (0 <? bits) && (2 ^ (bits - 1) <=? u) then u - 2 ^ bits else u.

End PyInt.

(** ** Text

    A [str] is its sequence of code points; [encode] is [str.encode()], the
    strict UTF-8 codec, which refuses surrogates. *)

Definition str := list Z.

Module PyStr.

Definition encode_char (c : Z) : Result bytes :=
  if c <? 0 then Raise UnicodeEncodeError
  else if c <? 0x80 then Ok [byte_of c]
  else if c <? 0x800 then
    Ok [byte_of (0xC0 + c / 64); byte_of (0x80 + c mod 64)]
  else if (0xD800 <=? c) && (c <=? 0xDFFF) then Raise UnicodeEncodeError
  else if c <? 0x10000 then
    Ok [byte_of (0xE0 + c / 4096); byte_of (0x80 + (c / 64) mod 64);
        byte_of (0x80 + c mod 64)]
  else if c <? 0x110000 then
    Ok [byte_of (0xF0 + c / 262144); byte_of (0x80 + (c / 4096) mod 64);
        byte_of (0x80 + (c / 64) mod 64); byte_of (0x80 + c mod 64)]
  else Raise UnicodeEncodeError.

Fixpoint encode (s : str) : Result bytes :=
  match s with
  | [] => Ok []
  | c :: rest =>
      b <- encode_char c ;;
      bs <- encode rest ;;
      Ok (b ++ bs)
  end.

End PyStr.

Module PyBytes.

(** [bs[lo:hi]] for non-negative bounds. *)
Definition slice (lo hi : nat) (bs : bytes) : bytes :=
  firstn (hi - lo) (skipn lo bs).

(** [bs[lo:-1]] *)
Definition slice_to_last (lo : nat) (bs : bytes) : bytes :=
  slice lo (length bs - 1) bs.

(** [bs.find(b"\0")]: the index of the first zero byte, or [-1]. *)
Fixpoint find_zero (bs : bytes) : Z :=
  match bs with
  | [] => -1
  | b :: rest =>
      if Byte.eqb b x00 then 0
      else let r := find_zero rest in
           if r =? -1 then -1 else r + 1
  end.

End PyBytes.

(** ** Packets *)

Inductive PacketType := LOGIN | EXECUTE | RESPONSE.

Definition value (t : PacketType) : Z :=
  match t with
  | LOGIN => 3
  | EXECUTE => 2
  | RESPONSE => 0
  end.

(** The field [type: PacketType | int]. *)
Inductive TypeField :=
| Enum (t : PacketType)
| Int (z : Z).

(** [PacketType] is an [IntEnum]: a member is an [int] and compares as its
    value. *)
Definition int_of (t : TypeField) : Z :=
  match t with
  | Enum t => value t
  | Int z => z
  end.

(** The field [data: str | bytes]; the annotation is not enforced, so any
    other object can be stored there too. *)
Inductive Data :=
| Str (s : str)
| Bytes (d : bytes)
| Other.

Record Packet := mkPacket {
  request_id : Z;
  type : TypeField;
  data : Data
}.

Definition must_bytes (self : Packet) : Result bytes :=
  match data self with
  | Bytes d => Ok d
  | _ => Raise (ValueError DataIsNotBytes)
  end.

Definition must_str (self : Packet) : Result str :=
  match data self with
  | Str s => Ok s
  | _ => Raise (ValueError DataIsNotStr)
  end.

(** The [if isinstance(packet.data, str) ... elif ... else] that opens
    [_build_packet]: the bytes [d] of the payload. *)
Definition encoded (dt : Data) : Result bytes :=
  match dt with
  | Str s => PyStr.encode s
  | Bytes d => Ok d
  | Other => Raise TypeError
  end.

Definition _build_packet (packet : Packet) : Result bytes :=
  d <- encoded (data packet) ;;
  if (4096 <? length d)%nat then Raise (ValueError (TooLargeData (length d)))
  else
    rid <- PyInt.to_bytes4 (request_id packet) true ;;
    ty <- PyInt.to_bytes4 (int_of (type packet)) true ;;
    Ok (rid ++ ty ++ d ++ [x00]).

(** ** The client

    The transport is kept abstract: [Reader] is whatever state the
    [asyncio.StreamReader] is in, and [read n] is [await reader.read(n)],
    which hands over the bytes it has (any number of them, the receiver
    checks) and the reader's next state.  The writer is the sequence of bytes
    written so far. *)

Section Client.

Variable Reader : Type.
Variable read : nat -> Reader -> bytes * Reader.

Record RCONClient := mkClient {
  _i : Z;
  host : str;
  port : Z;
  _reader : Reader;
  _writer : bytes
}.

(** A method either returns or raises, and leaves a client object. *)
Definition M (A : Type) := RCONClient -> Result A * RCONClient.

Definition ret {A} (a : A) : M A := fun self => (Ok a, self).

Definition raise {A} (e : Exception) : M A := fun self => (Raise e, self).

Definition lift {A} (r : Result A) : M A := fun self => (r, self).

Definition bind {A B} (m : M A) (k : A -> M B) : M B :=
  fun self =>
    match m self with
    | (Ok a, self') => k a self'
    | (Raise e, self') => (Raise e, self')
    end.

Notation "x <~ e ;; k" := (bind e (fun x => k))
  (at level 61, e at next level, right associativity).

Definition with_reader (r : Reader) (self : RCONClient) : RCONClient :=
  mkClient (_i self) (host self) (port self) r (_writer self).

Definition with_writer (w : bytes) (self : RCONClient) : RCONClient :=
  mkClient (_i self) (host self) (port self) (_reader self) w.

Definition with_i (i : Z) (self : RCONClient) : RCONClient :=
  mkClient i (host self) (port self) (_reader self) (_writer self).

(** [await self._reader.read(n)] *)
Definition reader_read (n : nat) : M bytes :=
  fun self =>
    let (got, r) := read n (_reader self) in (Ok got, with_reader r self).

(** [self._writer.write(b); await self._writer.drain()], on a connection
    that stays up: the writer takes the bytes.  A [drain] that raises
    because the connection was lost is outside this model. *)
Definition writer_write (b : bytes) : M unit :=
  fun self => (Ok tt, with_writer (_writer self ++ b) self).

(** [i = self._i; self._i += 1] *)
Definition take_id : M Z :=
  fun self => (Ok (_i self), with_i (_i self + 1) self).

Definition _recv_packet : M Packet :=
  nb <~ reader_read 4 ;;
  if negb (length nb =? 4)%nat then
    raise (ValueError (IncorrectLength (length nb)))
  else
    let n := PyInt.from_bytes nb false in
    if n <? 9 then raise (ValueError (TooSmallPacket n))
    else if 1455 <? n then raise (ValueError (TooBigPacket n))
    else
      packet <~ reader_read (Z.to_nat n) ;;
      if negb (Z.of_nat (length packet) =? n) then
        raise (ValueError (IncorrectPacket n (length packet)))
      else
        ret (mkPacket
               (PyInt.from_bytes (PyBytes.slice 0 4 packet) true)
               (Int (PyInt.from_bytes (PyBytes.slice 4 8 packet) true))
               (Bytes (PyBytes.slice_to_last 8 packet))).

Definition _recv_text_packet : M Packet :=
  packet <~ _recv_packet ;;
  d <~ lift (must_bytes packet) ;;
  let zero := PyBytes.find_zero d in
  if zero =? -1 then raise (ValueError NotZeroTerminated)
  else
    ret (mkPacket (request_id packet) (type packet)
                  (Bytes (PyBytes.slice 0 (Z.to_nat zero) d))).

Definition _send_packet (packet : Packet) : M unit :=
  payload <~ lift (_build_packet packet) ;;
  len <~ lift (PyInt.to_bytes4 (Z.of_nat (length payload)) false) ;;
  writer_write (len ++ payload).

Definition _send_text_packet (packet : Packet) : M unit :=
  s <~ lift (must_str packet) ;;
  e <~ lift (PyStr.encode s) ;;
  _send_packet
    (mkPacket (request_id packet) (type packet) (Bytes (e ++ [x00]))).

Definition login (password : str) : M unit :=
  i <~ take_id ;;
  _ <~ _send_text_packet (mkPacket i (Enum LOGIN) (Str password)) ;;
  packet <~ _recv_packet ;;
  if negb (request_id packet =? i) then
    raise (ValueError (InvalidRequestID i (request_id packet)))
  else ret tt.

(** The body of [execute]'s [while True] runs on the client and on the
    local [result]; it returns whether the [break] was taken.  Where it
    raises, the locals are what they were at the [raise].  The
    [print(payload)] goes to standard output, which is not part of the
    state here. *)
Record Locals := mkLocals {
  self_ : RCONClient;
  result : bytes
}.

Definition execute_body (i : Z) (l : Locals) : Result bool * Locals :=
  match _recv_text_packet (self_ l) with
  | (Raise e, c) => (Raise e, mkLocals c (result l))
  | (Ok packet, c) =>
      if negb (request_id packet =? i) then
        (Raise (ValueError (InvalidRequestID i (request_id packet))),
         mkLocals c (result l))
      else if negb (int_of (type packet) =? value RESPONSE) then
        (Raise (ValueError
                  (InvalidResponseType (value RESPONSE)
                                       (int_of (type packet)))),
         mkLocals c (result l))
      else
        match must_bytes packet with
        | Raise e => (Raise e, mkLocals c (result l))
        | Ok payload =>
            (Ok (length payload <? 4096)%nat,
             mkLocals c (result l ++ payload))
        end
  end.

(** The loop, with [fuel] bounding the number of iterations; [None] is a
    loop that has not finished within the bound. *)
Fixpoint execute_loop (fuel : nat) (i : Z) (l : Locals)
  : option (Result bytes * Locals) :=
  match fuel with
  | O => None
  | S fuel' =>
      match execute_body i l with
      | (Raise e, l') => Some (Raise e, l')
      | (Ok true, l') => Some (Ok (result l'), l')
      | (Ok false, l') => execute_loop fuel' i l'
      end
  end.

Definition execute (fuel : nat) (command : str) (self : RCONClient)
  : option (Result bytes * RCONClient) :=
  match take_id self with
  | (Raise e, c) => Some (Raise e, c)
  | (Ok i, c) =>
      match _send_text_packet (mkPacket i (Enum EXECUTE) (Str command)) c with
      | (Raise e, c') => Some (Raise e, c')
      | (Ok _, c') =>
          match execute_loop fuel i (mkLocals c' []) with
          | None => None
          | Some (r, l) => Some (r, self_ l)
          end
      end
  end.

End Client.

Arguments mkClient {Reader} _ _ _ _ _.
Arguments ret {Reader A} a.
Arguments raise {Reader A} e.
Arguments lift {Reader A} r.

(** ** A concrete transport

    The bytes the server has sent, in order, all of them arrived before the
    client reads: [read n] takes the next [n] of them, fewer only when the
    stream ends first.  A [StreamReader] may also hand over fewer bytes than
    asked for while more are on their way; what the code does for every such
    delivery is stated over an arbitrary [read], and this reader serves for
    runs on given bytes. *)

Definition Stream := bytes.

Definition stream_read (n : nat) (s : Stream) : bytes * Stream :=
  (firstn n s, skipn n s).

Definition client_on (i : Z) (s : Stream) : RCONClient Stream :=
  mkClient i [49; 50; 55; 46; 48; 46; 48; 46; 49] 25575 s [].

(** The length-prefixed frame the server sends for a text response: header,
    payload, the terminator of the text and the pad byte. *)
Definition server_frame (rid ty : Z) (payload : bytes) : bytes :=
  PyInt.le_digits 4 (Z.of_nat (length payload) + 10)
  ++ PyInt.le_digits 4 rid ++ PyInt.le_digits 4 ty ++ payload ++ [x00; x00].

(** ** The error kinds of the specification, as sets of raise sites *)

Definition FramingError (e : Exception) : Prop :=
  match e with
  | ValueError (IncorrectLength _) | ValueError (TooSmallPacket _)
  | ValueError (TooBigPacket _) | ValueError (IncorrectPacket _ _) => True
  | _ => False
  end.

Definition PayloadTooLarge (e : Exception) : Prop :=
  match e with
  | ValueError (TooLargeData _) => True
  | _ => False
  end.

(** The packet [_recv_packet] returns for a frame body: the [Packet(...)] of
    its last statement. *)
Definition packet_of_body (body : bytes) : Packet :=
  mkPacket (PyInt.from_bytes (PyBytes.slice 0 4 body) true)
           (Int (PyInt.from_bytes (PyBytes.slice 4 8 body) true))
           (Bytes (PyBytes.slice_to_last 8 body)).

(** ** Encode and decode as functions on bytes

    The codec without the transport.  Encoding is [_build_packet]; decoding
    is [packet_of_body], the [Packet(...)] that [_recv_packet] makes of a
    frame body.  The text pair adds what the text methods do around them. *)

(** The body [_send_text_packet] has [_send_packet] build: the packet with
    the encoded text and its terminator as data, passed to [_build_packet]. *)
Definition build_text_packet (packet : Packet) : Result bytes :=
  s <- must_str packet ;;
  e <- PyStr.encode s ;;
  _build_packet
    (mkPacket (request_id packet) (type packet) (Bytes (e ++ [x00]))).

(** What [_recv_text_packet] does with the packet it received: the payload
    is cut at its first zero byte, and there must be one. *)
Definition cut_at_terminator (packet : Packet) : Result Packet :=
  d <- must_bytes packet ;;
  let zero := PyBytes.find_zero d in
  if zero =? -1 then Raise (ValueError NotZeroTerminated)
  else
    Ok (mkPacket (request_id packet) (type packet)
                 (Bytes (PyBytes.slice 0 (Z.to_nat zero) d))).

Definition int32 (z : Z) : Prop := - 2 ^ 31 <= z < 2 ^ 31.

(** Building a packet of raw bytes and decoding the body gives the packet
    back. *)
Definition generic_round_trip (rid ty : Z) (d : bytes) : Prop :=
  (body <- _build_packet (mkPacket rid (Int ty) (Bytes d)) ;;
   Ok (packet_of_body body))
  = Ok (mkPacket rid (Int ty) (Bytes d)).

(** Building a text packet and text-decoding the body gives the UTF-8 bytes
    of the text back (the receiver never rebuilds a [str]). *)
Definition text_round_trip (rid ty : Z) (s : str) : Prop :=
  exists e,
    PyStr.encode s = Ok e /\
    (body <- build_text_packet (mkPacket rid (Int ty) (Str s)) ;;
     cut_at_terminator (packet_of_body body))
    = Ok (mkPacket rid (Int ty) (Bytes e)).

(** ** Delivery of a frame

    The reader in state [r] hands over the frame with body [body] whole: its
    four length bytes in one read and the body in the next, and is then in
    state [r']. *)
Definition delivers {Reader : Type} (read : nat -> Reader -> bytes * Reader)
           (r : Reader) (body : bytes) (r' : Reader) : Prop :=
  exists r1,
    read 4%nat r = (PyInt.le_digits 4 (Z.of_nat (length body)), r1)
    /\ read (length body) r1 = (body, r').

(** ** Sample traffic *)

(** A frame for [{id=7, type=0}] carrying the text [hi] and its terminator,
    closed by the given pad byte. *)
Definition frame_hi (pad : byte) : bytes :=
  PyInt.le_digits 4 12 ++ PyInt.le_digits 4 7 ++ PyInt.le_digits 4 0
  ++ [x68; x69; x00] ++ [pad].

(** A frame whose length field declares [n] bytes, followed by [body]. *)
Definition declared (n : Z) (body : bytes) : bytes :=
  PyInt.le_digits 4 n ++ body.

(** A frame for [{id=7, type=0}] whose payload [hi] is followed by the pad
    byte only: no terminator. *)
Definition frame_unterminated : bytes :=
  PyInt.le_digits 4 11 ++ PyInt.le_digits 4 7 ++ PyInt.le_digits 4 0
  ++ [x68; x69] ++ [x00].

Definition hi : bytes := [x68; x69].

(** The client that has just sent [help] as request 1 and has [s] to read. *)
Definition awaiting (s : Stream) : RCONClient Stream :=
  snd (_send_text_packet (mkPacket 1 (Enum EXECUTE) (Str [104; 101; 108; 112]))
                         (client_on 2 s)).

Definition secret : str := [115; 101; 99; 114; 101; 116].

(** The client that has just sent the password [secret] as request 0 and
    has [s] to read. *)
Definition authenticating (s : Stream) : RCONClient Stream :=
  snd (_send_text_packet
         (mkPacket 0 (Enum LOGIN) (Str [115; 101; 99; 114; 101; 116]))
         (client_on 1 s)).

Definition help : str := [104; 101; 108; 112].

(** ** Construction, and calls in sequence *)

(** [RCONClient(host, port)] followed by [open()]: [__init__] sets the
    counter to 0 and stores host and port, [open] stores the reader and the
    writer of the connection, here a reader in state [r] and a writer nothing
    was written to. *)
Definition connected {Reader : Type} (h : str) (pt : Z) (r : Reader)
  : RCONClient Reader :=
  mkClient 0 h pt r [].

(** A call of one of the two request methods, and the client object a list
    of such calls leaves, whatever each call returns or raises. *)
Inductive Call :=
| CallLogin (password : str)
| CallExecute (command : str).

Definition after_call {Reader : Type} (read : nat -> Reader -> bytes * Reader)
           (c : RCONClient Reader) (k : Call) : RCONClient Reader :=
  match k with
  | CallLogin password => snd (login read password c)
  | CallExecute command =>
      match execute read 1 command c with
      | Some (_, c') => c'
      | None => c
      end
  end.

Definition after_calls {Reader : Type} (read : nat -> Reader -> bytes * Reader)
           (calls : list Call) (c : RCONClient Reader) : RCONClient Reader :=
  fold_left (after_call read) calls c.

(** ** The caller's choice of reply

    [src/rconbot/ext/base.py], [on_modal]: what is done with the bytes
    [execute] returned, as the [if]/[elif]/[else] on [len(response)] has it.
    The last branch removes every [b"\xc2\xa7"] from the response and decodes
    the rest as UTF-8, which raises on bytes that are not UTF-8. *)

Module PyText.

(** [bs.replace(b"\xc2\xa7", b"")]: occurrences are found left to right and
    do not overlap. *)
Fixpoint remove_section_sign (bs : bytes) : bytes :=
  match bs with
  | [] => []
  | b0 :: rest =>
      match rest with
      | b1 :: rest' =>
          if Byte.eqb b0 xc2 && Byte.eqb b1 xa7 then remove_section_sign rest'
          else b0 :: remove_section_sign rest
      | [] => [b0]
      end
  end.

Definition continuation (v : Z) : bool := (0x80 <=? v) && (v <=? 0xBF).

(** The range of the second byte of a three-byte sequence led by [v0]. *)
Definition second_of_three (v0 v1 : Z) : bool :=
  if v0 =? 0xE0 then (0xA0 <=? v1) && (v1 <=? 0xBF)
  else if v0 =? 0xED then (0x80 <=? v1) && (v1 <=? 0x9F)
  else continuation v1.

(** The range of the second byte of a four-byte sequence led by [v0]. *)
Definition second_of_four (v0 v1 : Z) : bool :=
  if v0 =? 0xF0 then (0x90 <=? v1) && (v1 <=? 0xBF)
  else if v0 =? 0xF4 then (0x80 <=? v1) && (v1 <=? 0x8F)
  else continuation v1.

(** [bs.decode("utf_8")], the strict decoder: well-formed sequences only, no
    overlong forms, no surrogates, nothing above U+10FFFF. *)
Fixpoint decode (bs : bytes) : Result str :=
  match bs with
  | [] => Ok []
  | b0 :: r0 =>
      let v0 := byte_val b0 in
      if v0 <? 0x80 then
        s <- decode r0 ;; Ok (v0 :: s)
      else if (0xC2 <=? v0) && (v0 <=? 0xDF) then
        match r0 with
        | b1 :: r1 =>
            let v1 := byte_val b1 in
            if continuation v1 then
              s <- decode r1 ;;
              Ok (((v0 - 0xC0) * 64 + (v1 - 0x80)) :: s)
            else Raise UnicodeDecodeError
        | _ => Raise UnicodeDecodeError
        end
      else if (0xE0 <=? v0) && (v0 <=? 0xEF) then
        match r0 with
        | b1 :: b2 :: r2 =>
            let v1 := byte_val b1 in
            let v2 := byte_val b2 in
            if second_of_three v0 v1 && continuation v2 then
              s <- decode r2 ;;
              Ok (((v0 - 0xE0) * 4096 + (v1 - 0x80) * 64 + (v2 - 0x80)) :: s)
            else Raise UnicodeDecodeError
        | _ => Raise UnicodeDecodeError
        end
      else if (0xF0 <=? v0) && (v0 <=? 0xF4) then
        match r0 with
        | b1 :: b2 :: b3 :: r3 =>
            let v1 := byte_val b1 in
            let v2 := byte_val b2 in
            let v3 := byte_val b3 in
            if second_of_four v0 v1 && continuation v2 && continuation v3 then
              s <- decode r3 ;;
              Ok (((v0 - 0xF0) * 262144 + (v1 - 0x80) * 4096
                   + (v2 - 0x80) * 64 + (v3 - 0x80)) :: s)
            else Raise UnicodeDecodeError
        | _ => Raise UnicodeDecodeError
        end
      else Raise UnicodeDecodeError
  end.

End PyText.

(** What [on_modal] does with a response: the reaction it adds, or what it
    calls [m.message.respond] with.  [reply] below gives it, or the exception
    that ends the handler instead. *)
Inductive Reply :=
| AddReaction
| RespondAttachment (response : bytes)
| RespondText (text : str).

Definition reply (response : bytes) : Result Reply :=
  if (length response =? 0)%nat then Ok AddReaction
  else if (2000 <? length response)%nat then Ok (RespondAttachment response)
  else
    text <- PyText.decode (PyText.remove_section_sign response) ;;
    Ok (RespondText text).

(** * Properties *)

Unset Implicit Arguments.

(** ** Integers and bytes *)

Lemma byte_val_range (b : byte) : 0 <= byte_val b < 256.
Proof.
  unfold byte_val. pose proof (Byte.to_N_bounded b). lia.
Qed.

Lemma byte_val_of (z : Z) : byte_val (byte_of z) = z mod 256.
Proof.
  unfold byte_val, byte_of.
  assert (Hr : 0 <= z mod 256 < 256) by (apply Z.mod_pos_bound; lia).
  destruct (Byte.of_N (Z.to_N (z mod 256))) as [b|] eqn:E.
  - apply Byte.to_of_N in E. rewrite E. lia.
  - apply Byte.of_N_None_iff in E. lia.
Qed.

Lemma byte_of_val (b : byte) : byte_of (byte_val b) = b.
Proof.
  unfold byte_of, byte_val.
  pose proof (Byte.to_N_bounded b) as Hb.
  rewrite Z.mod_small by lia.
  rewrite N2Z.id, Byte.of_to_N. reflexivity.
Qed.

Lemma le_digits_length (k : nat) (z : Z) : length (PyInt.le_digits k z) = k.
Proof.
  revert z. induction k as [|k IH]; intro z; simpl; [reflexivity|].
  now rewrite IH.
Qed.

Lemma le_value_digits (k : nat) (z : Z) :
  PyInt.le_value (PyInt.le_digits k z) = z mod 256 ^ Z.of_nat k.
Proof.
  revert z. induction k as [|k IH]; intro z.
  - simpl. now rewrite Z.mod_1_r.
  - cbn [PyInt.le_digits PyInt.le_value].
    rewrite byte_val_of, IH, Nat2Z.inj_succ, Z.pow_succ_r by lia.
    symmetry. apply Z.rem_mul_r; [lia|]. apply Z.pow_pos_nonneg; lia.
Qed.

Lemma le_value_range (bs : bytes) :
  0 <= PyInt.le_value bs < 256 ^ Z.of_nat (length bs).
Proof.
  induction bs as [|b bs IH].
  - simpl. lia.
  - cbn [PyInt.le_value length]. rewrite Nat2Z.inj_succ, Z.pow_succ_r by lia.
    pose proof (byte_val_range b). lia.
Qed.

Lemma from_bytes_unsigned (z : Z) :
  0 <= z < 2 ^ 32 -> PyInt.from_bytes (PyInt.le_digits 4 z) false = z.
Proof.
  intro Hz. unfold PyInt.from_bytes.
  rewrite le_value_digits. cbn [andb].
  change (256 ^ Z.of_nat 4) with (2 ^ 32). apply Z.mod_small; lia.
Qed.

Lemma from_bytes_signed (z : Z) :
  int32 z -> PyInt.from_bytes (PyInt.le_digits 4 z) true = z.
Proof.
  unfold int32. intro Hz. unfold PyInt.from_bytes.
  rewrite le_value_digits, le_digits_length.
  change (256 ^ Z.of_nat 4) with (2 ^ 32).
  change (8 * Z.of_nat 4) with 32. change (32 - 1) with 31.
  cbn [andb Z.ltb Z.compare].
  destruct (Z_lt_ge_dec z 0) as [Hneg|Hpos].
  - assert (E : z mod 2 ^ 32 = z + 2 ^ 32).
    { symmetry. apply Z.mod_unique with (q := -1); lia. }
    rewrite E. destruct (Z.leb_spec (2 ^ 31) (z + 2 ^ 32)); lia.
  - rewrite Z.mod_small by lia.
    destruct (Z.leb_spec (2 ^ 31) z); lia.
Qed.

Lemma to_bytes4_signed (z : Z) :
  int32 z -> PyInt.to_bytes4 z true = Ok (PyInt.le_digits 4 z).
Proof.
  unfold int32, PyInt.to_bytes4. intro Hz.
  destruct (Z.leb_spec (- 2 ^ 31) z); destruct (Z.ltb_spec z (2 ^ 31));
    cbn [andb]; try reflexivity; lia.
Qed.

Lemma to_bytes4_unsigned (z : Z) :
  0 <= z < 2 ^ 32 -> PyInt.to_bytes4 z false = Ok (PyInt.le_digits 4 z).
Proof.
  unfold PyInt.to_bytes4. intro Hz.
  destruct (Z.leb_spec 0 z); destruct (Z.ltb_spec z (2 ^ 32));
    cbn [andb]; try reflexivity; lia.
Qed.

(** ** Searching for the terminator *)

Lemma find_zero_range (d : bytes) :
  -1 <= PyBytes.find_zero d < Z.of_nat (length d).
Proof.
  induction d as [|b d IH]; cbn [PyBytes.find_zero length]; [lia|].
  destruct (Byte.eqb b x00); [lia|].
  destruct (Z.eqb_spec (PyBytes.find_zero d) (-1)); lia.
Qed.

Lemma find_zero_absent (d : bytes) :
  PyBytes.find_zero d = -1 <-> ~ In x00 d.
Proof.
  induction d as [|b d IH]; cbn [PyBytes.find_zero In]; [tauto|].
  destruct (Byte.eqb b x00) eqn:E.
  - apply Byte.byte_dec_bl in E. subst b. split; [discriminate|tauto].
  - apply Byte.eqb_false in E.
    pose proof (find_zero_range d) as Hr.
    destruct (Z.eqb_spec (PyBytes.find_zero d) (-1)) as [H1|H1].
    + split; [intros _ [H|H]; [congruence | tauto] | reflexivity].
    + split; [lia|]. intro H. exfalso. apply H1, IH. tauto.
Qed.

Lemma find_zero_first (pre suf : bytes) :
  ~ In x00 pre ->
  PyBytes.find_zero (pre ++ x00 :: suf) = Z.of_nat (length pre).
Proof.
  induction pre as [|b pre IH]; intro Hpre.
  - reflexivity.
  - cbn [app PyBytes.find_zero length].
    destruct (Byte.eqb b x00) eqn:E.
    + apply Byte.byte_dec_bl in E. subst b. exfalso. apply Hpre. now left.
    + rewrite IH by (intro H; apply Hpre; now right).
      destruct (Z.eqb_spec (Z.of_nat (length pre)) (-1)); lia.
Qed.

Lemma find_zero_split (d : bytes) :
  PyBytes.find_zero d <> -1 ->
  exists pre suf,
    d = pre ++ x00 :: suf /\ ~ In x00 pre /\
    PyBytes.find_zero d = Z.of_nat (length pre).
Proof.
  induction d as [|b d IH]; cbn [PyBytes.find_zero]; [congruence|].
  destruct (Byte.eqb b x00) eqn:E.
  - apply Byte.byte_dec_bl in E. subst b. intros _.
    exists [], d. repeat split. intros [].
  - apply Byte.eqb_false in E.
    destruct (Z.eqb_spec (PyBytes.find_zero d) (-1)) as [H1|H1]; [congruence|].
    intros _. destruct (IH H1) as (pre & suf & Hd & Hpre & Hz).
    exists (b :: pre), suf. repeat split.
    + now rewrite Hd.
    + intros [H|H]; [congruence | tauto].
    + rewrite Hz. cbn [length]. lia.
Qed.

(** ** The receiver, over any transport *)

Section Receiver.

Variable Reader : Type.
Variable read : nat -> Reader -> bytes * Reader.

Lemma recv_packet_eq (c : RCONClient Reader) :
  _recv_packet read c =
  let (nb, r1) := read 4 (_reader c) in
  if negb (length nb =? 4)%nat then
    (Raise (ValueError (IncorrectLength (length nb))), with_reader r1 c)
  else
    let n := PyInt.from_bytes nb false in
    if n <? 9 then (Raise (ValueError (TooSmallPacket n)), with_reader r1 c)
    else if 1455 <? n then
      (Raise (ValueError (TooBigPacket n)), with_reader r1 c)
    else
      let (body, r2) := read (Z.to_nat n) r1 in
      if negb (Z.of_nat (length body) =? n) then
        (Raise (ValueError (IncorrectPacket n (length body))),
         with_reader r2 c)
      else (Ok (packet_of_body body), with_reader r2 c).
Proof.
  unfold _recv_packet, bind at 1, reader_read at 1.
  destruct (read 4 (_reader c)) as [nb r1].
  destruct (negb (length nb =? 4)%nat); [reflexivity|].
  cbv zeta.
  destruct (PyInt.from_bytes nb false <? 9); [reflexivity|].
  destruct (1455 <? PyInt.from_bytes nb false); [reflexivity|].
  unfold bind, reader_read. cbn [_reader with_reader].
  destruct (read (Z.to_nat (PyInt.from_bytes nb false)) r1) as [body r2].
  destruct (negb (Z.of_nat (length body) =? PyInt.from_bytes nb false));
    reflexivity.
Qed.

Lemma recv_packet_inv (c c' : RCONClient Reader) (p : Packet) :
  _recv_packet read c = (Ok p, c') ->
  exists nb r1 body r2,
    read 4 (_reader c) = (nb, r1) /\ length nb = 4%nat /\
    9 <= PyInt.from_bytes nb false <= 1455 /\
    read (Z.to_nat (PyInt.from_bytes nb false)) r1 = (body, r2) /\
    Z.of_nat (length body) = PyInt.from_bytes nb false /\
    p = packet_of_body body /\ c' = with_reader r2 c.
Proof.
  rewrite recv_packet_eq.
  destruct (read 4 (_reader c)) as [nb r1].
  destruct (Nat.eqb_spec (length nb) 4) as [H4|H4]; cbn [negb];
    [|discriminate].
  cbv zeta.
  destruct (Z.ltb_spec (PyInt.from_bytes nb false) 9); [discriminate|].
  destruct (Z.ltb_spec 1455 (PyInt.from_bytes nb false)); [discriminate|].
  destruct (read (Z.to_nat (PyInt.from_bytes nb false)) r1) as [body r2] eqn:Eb.
  destruct (Z.eqb_spec (Z.of_nat (length body)) (PyInt.from_bytes nb false));
    cbn [negb]; [|discriminate].
  intro E. injection E as <- <-.
  exists nb, r1, body, r2. repeat split; assumption || reflexivity.
Qed.

Lemma recv_packet_raises (c c' : RCONClient Reader) (e : Exception) :
  _recv_packet read c = (Raise e, c') -> FramingError e.
Proof.
  rewrite recv_packet_eq.
  destruct (read 4 (_reader c)) as [nb r1].
  destruct (negb (length nb =? 4)%nat).
  { intro E. injection E as <- _. exact I. }
  cbv zeta.
  destruct (PyInt.from_bytes nb false <? 9).
  { intro E. injection E as <- _. exact I. }
  destruct (1455 <? PyInt.from_bytes nb false).
  { intro E. injection E as <- _. exact I. }
  destruct (read (Z.to_nat (PyInt.from_bytes nb false)) r1) as [body r2].
  destruct (negb (Z.of_nat (length body) =? PyInt.from_bytes nb false)).
  { intro E. injection E as <- _. exact I. }
  discriminate.
Qed.

Lemma slice_length (lo hi : nat) (bs : bytes) :
  (hi <= length bs)%nat -> length (PyBytes.slice lo hi bs) = (hi - lo)%nat.
Proof.
  intro H. unfold PyBytes.slice. rewrite length_firstn, length_skipn. lia.
Qed.

Lemma payload_length (body : bytes) :
  length (PyBytes.slice_to_last 8 body) = (length body - 9)%nat.
Proof.
  unfold PyBytes.slice_to_last. rewrite slice_length by lia. lia.
Qed.

Lemma recv_packet_data (c c' : RCONClient Reader) (p : Packet) :
  _recv_packet read c = (Ok p, c') ->
  exists d, data p = Bytes d /\ (length d <= 1446)%nat.
Proof.
  intro H. apply recv_packet_inv in H.
  destruct H as (nb & r1 & body & r2 & _ & _ & Hn & _ & Hlen & -> & _).
  exists (PyBytes.slice_to_last 8 body). split; [reflexivity|].
  rewrite payload_length. lia.
Qed.

Lemma recv_text_packet_eq (c : RCONClient Reader) :
  _recv_text_packet read c =
  match _recv_packet read c with
  | (Raise e, c') => (Raise e, c')
  | (Ok p, c') =>
      match data p with
      | Bytes d =>
          if PyBytes.find_zero d =? -1 then
            (Raise (ValueError NotZeroTerminated), c')
          else
            (Ok (mkPacket (request_id p) (type p)
                          (Bytes (firstn (Z.to_nat (PyBytes.find_zero d)) d))),
             c')
      | _ => (Raise (ValueError DataIsNotBytes), c')
      end
  end.
Proof.
  unfold _recv_text_packet, bind at 1.
  destruct (_recv_packet read c) as [[p|e] c']; [|reflexivity].
  unfold bind, lift, must_bytes.
  destruct (data p) as [s|d|]; try reflexivity.
  destruct (PyBytes.find_zero d =? -1); [reflexivity|].
  unfold ret, PyBytes.slice. cbn [skipn]. now rewrite Nat.sub_0_r.
Qed.

Lemma recv_text_packet_data (c c' : RCONClient Reader) (p : Packet) :
  _recv_text_packet read c = (Ok p, c') ->
  exists d, data p = Bytes d /\ (length d <= 1445)%nat.
Proof.
  rewrite recv_text_packet_eq.
  destruct (_recv_packet read c) as [[q|e] c1] eqn:E; [|discriminate].
  apply recv_packet_data in E. destruct E as (d & Hd & Hlen). rewrite Hd.
  pose proof (find_zero_range d) as Hr.
  destruct (Z.eqb_spec (PyBytes.find_zero d) (-1)); [discriminate|].
  intro H. injection H as <- <-.
  eexists. split; [reflexivity|]. rewrite length_firstn. lia.
Qed.

(** One iteration of [execute]'s loop, by the packet it receives. *)
Lemma execute_body_eq (i : Z) (l : Locals Reader) (packet : Packet)
      (c' : RCONClient Reader) (payload : bytes) :
  _recv_text_packet read (self_ l) = (Ok packet, c') ->
  data packet = Bytes payload ->
  execute_body read i l =
  if negb (request_id packet =? i) then
    (Raise (ValueError (InvalidRequestID i (request_id packet))),
     mkLocals c' (result l))
  else if negb (int_of (type packet) =? 0) then
    (Raise (ValueError (InvalidResponseType 0 (int_of (type packet)))),
     mkLocals c' (result l))
  else
    (Ok (length payload <? 4096)%nat, mkLocals c' (result l ++ payload)).
Proof.
  intros Hrecv Hdata. unfold execute_body. rewrite Hrecv.
  unfold must_bytes. rewrite Hdata. reflexivity.
Qed.

Lemma execute_body_breaks (i : Z) (l : Locals Reader) :
  fst (execute_body read i l) <> Ok false.
Proof.
  destruct (_recv_text_packet read (self_ l)) as [[packet|e] c'] eqn:E.
  - pose proof E as E'. apply recv_text_packet_data in E'.
    destruct E' as (d & Hd & Hlen).
    rewrite (execute_body_eq i l packet c' d E Hd).
    destruct (negb (request_id packet =? i)); [discriminate|].
    destruct (negb (int_of (type packet) =? 0)); [discriminate|].
    cbn [fst]. destruct (Nat.ltb_spec (length d) 4096); [discriminate|lia].
  - unfold execute_body. rewrite E. discriminate.
Qed.

Lemma execute_loop_once (fuel : nat) (i : Z) (l : Locals Reader) :
  execute_loop read (S fuel) i l =
  match execute_body read i l with
  | (Raise e, l') => Some (Raise e, l')
  | (Ok _, l') => Some (Ok (result l'), l')
  end.
Proof.
  cbn [execute_loop]. pose proof (execute_body_breaks i l) as H.
  destruct (execute_body read i l) as [[[|]|e] l']; try reflexivity.
  exfalso. now apply H.
Qed.

Lemma execute_fuel (fuel : nat) (command : str) (c : RCONClient Reader) :
  execute read (S fuel) command c = execute read 1 command c.
Proof.
  unfold execute. destruct (take_id c) as [[i|e] c1]; [|reflexivity].
  destruct (_send_text_packet _ c1) as [[u|e] c2]; [|reflexivity].
  now rewrite !execute_loop_once.
Qed.

Lemma execute_returns (command : str) (c : RCONClient Reader) :
  exists r c', execute read 1 command c = Some (r, c').
Proof.
  unfold execute. destruct (take_id c) as [[i|e] c1]; [|eauto].
  destruct (_send_text_packet _ c1) as [[u|e] c2]; [|eauto].
  rewrite execute_loop_once.
  destruct (execute_body read i _) as [[b|e] l']; eauto.
Qed.

End Receiver.

(** ** The sender *)

Lemma build_packet_ok (p : Packet) (d : bytes) :
  encoded (data p) = Ok d -> (length d <= 4096)%nat ->
  int32 (request_id p) -> int32 (int_of (type p)) ->
  _build_packet p =
  Ok (PyInt.le_digits 4 (request_id p)
      ++ PyInt.le_digits 4 (int_of (type p)) ++ d ++ [x00]).
Proof.
  intros Hd Hlen Hid Hty. unfold _build_packet. rewrite Hd. cbn [bindR].
  destruct (Nat.ltb_spec 4096 (length d)); [lia|].
  now rewrite (to_bytes4_signed _ Hid), (to_bytes4_signed _ Hty).
Qed.

Lemma build_packet_too_large (p : Packet) (d : bytes) :
  encoded (data p) = Ok d -> (4096 < length d)%nat ->
  _build_packet p = Raise (ValueError (TooLargeData (length d))).
Proof.
  intros Hd Hlen. unfold _build_packet. rewrite Hd. cbn [bindR].
  destruct (Nat.ltb_spec 4096 (length d)); [reflexivity|lia].
Qed.

(** The frame [_send_packet] writes for a payload [d]. *)
Lemma send_packet_ok (Reader : Type) (p : Packet) (d : bytes)
      (c : RCONClient Reader) :
  encoded (data p) = Ok d -> (length d <= 4096)%nat ->
  int32 (request_id p) -> int32 (int_of (type p)) ->
  _send_packet p c =
  (Ok tt,
   with_writer
     (_writer c
      ++ PyInt.le_digits 4 (Z.of_nat (length d) + 9)
      ++ PyInt.le_digits 4 (request_id p)
      ++ PyInt.le_digits 4 (int_of (type p)) ++ d ++ [x00]) c).
Proof.
  intros Hd Hlen Hid Hty. unfold _send_packet, bind, lift.
  rewrite (build_packet_ok p d Hd Hlen Hid Hty).
  rewrite !length_app, !le_digits_length. cbn [length].
  rewrite to_bytes4_unsigned by lia.
  unfold writer_write. cbn [bindR].
  replace (Z.of_nat (4 + (4 + (length d + 1)))) with (Z.of_nat (length d) + 9)
    by lia.
  reflexivity.
Qed.

Lemma send_packet_too_large (Reader : Type) (p : Packet) (d : bytes)
      (c : RCONClient Reader) :
  encoded (data p) = Ok d -> (4096 < length d)%nat ->
  _send_packet p c = (Raise (ValueError (TooLargeData (length d))), c).
Proof.
  intros Hd Hlen. unfold _send_packet, bind, lift.
  now rewrite (build_packet_too_large p d Hd Hlen).
Qed.

Lemma send_text_packet_ok (Reader : Type) (p : Packet) (s : str) (e : bytes)
      (c : RCONClient Reader) :
  data p = Str s -> PyStr.encode s = Ok e -> (length e <= 4095)%nat ->
  int32 (request_id p) -> int32 (int_of (type p)) ->
  _send_text_packet p c =
  (Ok tt,
   with_writer
     (_writer c
      ++ PyInt.le_digits 4 (Z.of_nat (length e) + 10)
      ++ PyInt.le_digits 4 (request_id p)
      ++ PyInt.le_digits 4 (int_of (type p)) ++ e ++ [x00; x00]) c).
Proof.
  intros Hs He Hlen Hid Hty. unfold _send_text_packet, bind at 1, lift at 1.
  unfold must_str. rewrite Hs. unfold bind at 1, lift at 1. rewrite He.
  rewrite (send_packet_ok Reader _ (e ++ [x00])); cbn [data request_id type];
    try assumption; try reflexivity.
  - rewrite length_app. cbn [length]. rewrite <- (app_assoc e). cbn [app].
    replace (Z.of_nat (length e + 1) + 9) with (Z.of_nat (length e) + 10)
      by lia.
    reflexivity.
  - rewrite length_app. cbn [length]. lia.
Qed.

Lemma send_text_packet_too_large (Reader : Type) (p : Packet) (s : str)
      (e : bytes) (c : RCONClient Reader) :
  data p = Str s -> PyStr.encode s = Ok e -> (4096 <= length e)%nat ->
  _send_text_packet p c =
  (Raise (ValueError (TooLargeData (length e + 1))), c).
Proof.
  intros Hs He Hlen. unfold _send_text_packet, bind at 1, lift at 1.
  unfold must_str. rewrite Hs. unfold bind at 1, lift at 1. rewrite He.
  rewrite (send_packet_too_large Reader _ (e ++ [x00])); cbn [data];
    try reflexivity.
  - now rewrite length_app.
  - rewrite length_app. cbn [length]. lia.
Qed.

(** ** The receiver on a byte stream *)

Lemma firstn_skipn_app (a b : bytes) (n : nat) :
  length a = n -> firstn n (a ++ b) = a /\ skipn n (a ++ b) = b.
Proof.
  revert n. induction a as [|x a IH]; intros n Hn; subst n; cbn.
  - now destruct b.
  - destruct (IH (length a) eq_refl) as [-> ->]. now split.
Qed.

Lemma packet_of_body_fields (a b d : bytes) (pad : byte) :
  length a = 4%nat -> length b = 4%nat ->
  packet_of_body (a ++ b ++ d ++ [pad]) =
  mkPacket (PyInt.from_bytes a true) (Int (PyInt.from_bytes b true)) (Bytes d).
Proof.
  intros Ha Hb. unfold packet_of_body, PyBytes.slice_to_last, PyBytes.slice.
  change (skipn 0 (a ++ b ++ d ++ [pad])) with (a ++ b ++ d ++ [pad]).
  change (4 - 0)%nat with 4%nat. change (8 - 4)%nat with 4%nat.
  destruct (firstn_skipn_app a (b ++ d ++ [pad]) 4 Ha) as [F1 S1].
  destruct (firstn_skipn_app b (d ++ [pad]) 4 Hb) as [F2 S2].
  rewrite F1, S1, F2.
  replace (skipn 8 (a ++ b ++ d ++ [pad])) with (d ++ [pad]).
  2:{ change 8%nat with (4 + 4)%nat. now rewrite <- skipn_skipn, S1, S2. }
  rewrite !length_app. cbn [length]. rewrite Ha, Hb.
  replace (4 + (4 + (length d + 1)) - 1 - 8)%nat with (length d) by lia.
  now destruct (firstn_skipn_app d [pad] (length d) eq_refl) as [-> _].
Qed.

Lemma recv_stream_eq (i : Z) (h : str) (pt n : Z) (rest w : bytes) :
  0 <= n < 2 ^ 32 ->
  _recv_packet stream_read (mkClient i h pt (PyInt.le_digits 4 n ++ rest) w) =
  if n <? 9 then
    (Raise (ValueError (TooSmallPacket n)), mkClient i h pt rest w)
  else if 1455 <? n then
    (Raise (ValueError (TooBigPacket n)), mkClient i h pt rest w)
  else if negb (Z.of_nat (length (firstn (Z.to_nat n) rest)) =? n) then
    (Raise (ValueError (IncorrectPacket n (length (firstn (Z.to_nat n) rest)))),
     mkClient i h pt (skipn (Z.to_nat n) rest) w)
  else
    (Ok (packet_of_body (firstn (Z.to_nat n) rest)),
     mkClient i h pt (skipn (Z.to_nat n) rest) w).
Proof.
  intro Hn. rewrite recv_packet_eq. cbn [_reader]. unfold stream_read.
  destruct (firstn_skipn_app (PyInt.le_digits 4 n) rest 4
              (le_digits_length 4 n)) as [-> ->].
  rewrite le_digits_length. cbn [Nat.eqb negb]. cbv zeta.
  rewrite (from_bytes_unsigned n Hn).
  destruct (n <? 9); [reflexivity|].
  destruct (1455 <? n); reflexivity.
Qed.

Lemma recv_stream_ok (i : Z) (h : str) (pt n : Z) (body rest w : bytes) :
  9 <= n <= 1455 -> Z.of_nat (length body) = n ->
  _recv_packet stream_read
    (mkClient i h pt (PyInt.le_digits 4 n ++ body ++ rest) w) =
  (Ok (packet_of_body body), mkClient i h pt rest w).
Proof.
  intros Hn Hlen. rewrite recv_stream_eq by lia.
  destruct (Z.ltb_spec n 9); [lia|]. destruct (Z.ltb_spec 1455 n); [lia|].
  assert (Hb : length body = Z.to_nat n) by lia.
  destruct (firstn_skipn_app body rest (Z.to_nat n) Hb) as [-> ->].
  rewrite Hlen, Z.eqb_refl. reflexivity.
Qed.

Lemma recv_stream_short (i : Z) (h : str) (pt n : Z) (rest w : bytes) :
  9 <= n <= 1455 -> Z.of_nat (length rest) < n ->
  _recv_packet stream_read (mkClient i h pt (PyInt.le_digits 4 n ++ rest) w) =
  (Raise (ValueError (IncorrectPacket n (length rest))), mkClient i h pt [] w).
Proof.
  intros Hn Hlen. rewrite recv_stream_eq by lia.
  destruct (Z.ltb_spec n 9); [lia|]. destruct (Z.ltb_spec 1455 n); [lia|].
  rewrite firstn_all2, skipn_all2 by lia.
  destruct (Z.eqb_spec (Z.of_nat (length rest)) n); [lia|]. reflexivity.
Qed.

(** * The specification, statement by statement *)

(** C10: for every frame the receiver accepts, the returned packet has
    [request_id] = body[0:4] and [type] = body[4:8], both read as
    little-endian signed 32-bit integers, and payload = body[8:len-1]: exactly
    one trailing byte is dropped, whatever its value. *)
Theorem recv_packet_decodes :
  forall (Reader : Type) (read : nat -> Reader -> bytes * Reader)
         (c : RCONClient Reader) (nb body : bytes) (r1 r2 : Reader),
    read 4%nat (_reader c) = (nb, r1) -> length nb = 4%nat ->
    9 <= PyInt.from_bytes nb false <= 1455 ->
    read (Z.to_nat (PyInt.from_bytes nb false)) r1 = (body, r2) ->
    Z.of_nat (length body) = PyInt.from_bytes nb false ->
    _recv_packet read c =
      (Ok (mkPacket (PyInt.from_bytes (PyBytes.slice 0 4 body) true)
                    (Int (PyInt.from_bytes (PyBytes.slice 4 8 body) true))
                    (Bytes (PyBytes.slice 8 (length body - 1) body))),
       with_reader r2 c)
    /\ length (PyBytes.slice 8 (length body - 1) body) = (length body - 9)%nat
    /\ (forall (a b d : bytes) (pad : byte),
           length a = 4%nat -> length b = 4%nat ->
           body = a ++ b ++ d ++ [pad] ->
           fst (_recv_packet read c) =
           Ok (mkPacket (PyInt.from_bytes a true)
                        (Int (PyInt.from_bytes b true)) (Bytes d))).
Proof.
  intros Reader read c nb body r1 r2 Hnb H4 Hn Hbody Hlen.
  assert (E : _recv_packet read c = (Ok (packet_of_body body), with_reader r2 c)).
  { rewrite recv_packet_eq, Hnb, H4. cbn [Nat.eqb negb]. cbv zeta.
    destruct (Z.ltb_spec (PyInt.from_bytes nb false) 9); [lia|].
    destruct (Z.ltb_spec 1455 (PyInt.from_bytes nb false)); [lia|].
    rewrite Hbody, Hlen, Z.eqb_refl. reflexivity. }
  split; [exact E|]. split.
  - apply (payload_length body).
  - intros a b d pad Ha Hb ->. rewrite E. cbn [fst].
    now rewrite packet_of_body_fields.
Qed.

Lemma recv_packet_decodes_witness :
  _recv_packet stream_read (client_on 0 (frame_hi x2a)) =
    (Ok (mkPacket 7 (Int 0) (Bytes [x68; x69; x00])),
     with_reader [] (client_on 0 (frame_hi x2a)))
  /\ fst (_recv_packet stream_read (client_on 0 (frame_hi x2a))) =
     Ok (mkPacket (PyInt.from_bytes (PyInt.le_digits 4 7) true)
                  (Int (PyInt.from_bytes (PyInt.le_digits 4 0) true))
                  (Bytes [x68; x69; x00])).
Proof.
  destruct (recv_packet_decodes Stream stream_read
              (client_on 0 (frame_hi x2a))
              (PyInt.le_digits 4 12)
              (PyInt.le_digits 4 7 ++ PyInt.le_digits 4 0
               ++ [x68; x69; x00] ++ [x2a])
              (PyInt.le_digits 4 7 ++ PyInt.le_digits 4 0
               ++ [x68; x69; x00] ++ [x2a])
              [])
    as (H1 & _ & H3).
  - reflexivity.
  - reflexivity.
  - vm_compute. split; discriminate.
  - reflexivity.
  - reflexivity.
  - split.
    + exact H1.
    + apply (H3 (PyInt.le_digits 4 7) (PyInt.le_digits 4 0)
                [x68; x69; x00] x2a); reflexivity.
Defined.

(** C5: a declared frame length of 8 is refused as too small and one of 1456
    as too big, 9 and 1455 are accepted when that many bytes follow, and a
    read that returns another number of bytes than declared (the stream ended
    early, or the length prefix itself came short) is refused; each refusal is
    a framing error. *)
Theorem recv_packet_framing :
  forall (Reader : Type) (read : nat -> Reader -> bytes * Reader)
         (c : RCONClient Reader) (nb : bytes) (r1 : Reader),
    read 4%nat (_reader c) = (nb, r1) ->
    let n := PyInt.from_bytes nb false in
    (length nb <> 4%nat ->
     _recv_packet read c =
     (Raise (ValueError (IncorrectLength (length nb))), with_reader r1 c))
    /\ (length nb = 4%nat -> n < 9 ->
        _recv_packet read c =
        (Raise (ValueError (TooSmallPacket n)), with_reader r1 c))
    /\ (length nb = 4%nat -> 1455 < n ->
        _recv_packet read c =
        (Raise (ValueError (TooBigPacket n)), with_reader r1 c))
    /\ (length nb = 4%nat -> 9 <= n <= 1455 ->
        forall (body : bytes) (r2 : Reader),
          read (Z.to_nat n) r1 = (body, r2) ->
          (Z.of_nat (length body) <> n ->
           _recv_packet read c =
           (Raise (ValueError (IncorrectPacket n (length body))),
            with_reader r2 c))
          /\ (Z.of_nat (length body) = n ->
              _recv_packet read c =
              (Ok (packet_of_body body), with_reader r2 c)))
    /\ (forall (e : Exception) (c' : RCONClient Reader),
           _recv_packet read c = (Raise e, c') -> FramingError e).
Proof.
  intros Reader read c nb r1 Hnb n. subst n.
  split; [|split; [|split; [|split]]].
  - intro H4. rewrite recv_packet_eq, Hnb.
    destruct (Nat.eqb_spec (length nb) 4); [contradiction|reflexivity].
  - intros H4 Hn. rewrite recv_packet_eq, Hnb, H4. cbn [Nat.eqb negb]. cbv zeta.
    destruct (Z.ltb_spec (PyInt.from_bytes nb false) 9); [reflexivity|lia].
  - intros H4 Hn. rewrite recv_packet_eq, Hnb, H4. cbn [Nat.eqb negb]. cbv zeta.
    destruct (Z.ltb_spec (PyInt.from_bytes nb false) 9); [lia|].
    destruct (Z.ltb_spec 1455 (PyInt.from_bytes nb false)); [reflexivity|lia].
  - intros H4 Hn body r2 Hbody.
    assert (E : _recv_packet read c =
                if negb (Z.of_nat (length body) =? PyInt.from_bytes nb false)
                then (Raise (ValueError (IncorrectPacket
                                           (PyInt.from_bytes nb false)
                                           (length body))),
                      with_reader r2 c)
                else (Ok (packet_of_body body), with_reader r2 c)).
    { rewrite recv_packet_eq, Hnb, H4. cbn [Nat.eqb negb]. cbv zeta.
      destruct (Z.ltb_spec (PyInt.from_bytes nb false) 9); [lia|].
      destruct (Z.ltb_spec 1455 (PyInt.from_bytes nb false)); [lia|].
      now rewrite Hbody. }
    rewrite E. split; intro Hl.
    + destruct (Z.eqb_spec (Z.of_nat (length body))
                           (PyInt.from_bytes nb false));
        [contradiction|reflexivity].
    + now rewrite Hl, Z.eqb_refl.
  - intros e c' He. exact (recv_packet_raises Reader read c c' e He).
Qed.

Lemma recv_packet_framing_witness :
  fst (_recv_packet stream_read (client_on 0 (declared 8 (repeat x00 8))))
  = Raise (ValueError (TooSmallPacket 8))
  /\ fst (_recv_packet stream_read
            (client_on 0 (declared 1456 (repeat x00 1456))))
     = Raise (ValueError (TooBigPacket 1456))
  /\ fst (_recv_packet stream_read (client_on 0 (declared 9 (repeat x00 9))))
     = Ok (mkPacket 0 (Int 0) (Bytes []))
  /\ fst (_recv_packet stream_read
            (client_on 0 (declared 1455 (repeat x00 1455))))
     = Ok (mkPacket 0 (Int 0) (Bytes (repeat x00 1446)))
  /\ fst (_recv_packet stream_read (client_on 0 (declared 9 (repeat x00 5))))
     = Raise (ValueError (IncorrectPacket 9 5))
  /\ fst (_recv_packet stream_read (client_on 0 [x09; x00]))
     = Raise (ValueError (IncorrectLength 2))
  /\ FramingError (ValueError (IncorrectPacket 9 5)).
Proof.
  pose (inst := fun s : Stream =>
          recv_packet_framing Stream stream_read (client_on 0 s)
            (firstn 4 s) (skipn 4 s) eq_refl).
  repeat apply conj.
  - destruct (inst (declared 8 (repeat x00 8))) as (_ & H & _).
    rewrite H; [reflexivity | reflexivity | vm_compute; reflexivity].
  - destruct (inst (declared 1456 (repeat x00 1456))) as (_ & _ & H & _).
    rewrite H; [reflexivity | reflexivity | vm_compute; reflexivity].
  - destruct (inst (declared 9 (repeat x00 9))) as (_ & _ & _ & H & _).
    destruct (H eq_refl ltac:(vm_compute; split; discriminate)
                (repeat x00 9) [] eq_refl) as [_ Hok].
    rewrite Hok; reflexivity.
  - destruct (inst (declared 1455 (repeat x00 1455))) as (_ & _ & _ & H & _).
    destruct (H eq_refl ltac:(vm_compute; split; discriminate)
                (repeat x00 1455) [] eq_refl) as [_ Hok].
    rewrite Hok; [vm_compute; reflexivity | vm_compute; reflexivity].
  - destruct (inst (declared 9 (repeat x00 5))) as (_ & _ & _ & H & _).
    destruct (H eq_refl ltac:(vm_compute; split; discriminate)
                (repeat x00 5) [] eq_refl) as [Hbad _].
    rewrite Hbad; [reflexivity | vm_compute; discriminate].
  - destruct (inst [x09; x00]) as (H & _).
    rewrite H; [reflexivity | vm_compute; discriminate].
  - destruct (inst (declared 9 (repeat x00 5))) as (_ & _ & _ & H & Herr).
    destruct (H eq_refl ltac:(vm_compute; split; discriminate)
                (repeat x00 5) [] eq_refl) as [Hbad _].
    apply (Herr _ _ (Hbad ltac:(vm_compute; discriminate))).
Defined.

(** C9: the text receiver needs a zero byte in the payload of the packet it
    received: it returns the bytes before the first one, and raises
    "data is not zero-terminated" for every payload without one. *)
Theorem recv_text_packet_terminator :
  forall (Reader : Type) (read : nat -> Reader -> bytes * Reader)
         (c c' : RCONClient Reader) (p : Packet) (d : bytes),
    _recv_packet read c = (Ok p, c') -> data p = Bytes d ->
    (~ In x00 d ->
     _recv_text_packet read c = (Raise (ValueError NotZeroTerminated), c'))
    /\ (forall pre suf : bytes,
           d = pre ++ x00 :: suf -> ~ In x00 pre ->
           _recv_text_packet read c =
           (Ok (mkPacket (request_id p) (type p) (Bytes pre)), c'))
    /\ (forall (q : Packet) (c'' : RCONClient Reader),
           _recv_text_packet read c = (Ok q, c'') -> In x00 d).
Proof.
  intros Reader read c c' p d Hrecv Hd.
  rewrite recv_text_packet_eq, Hrecv, Hd. split; [|split].
  - intro Hno. apply find_zero_absent in Hno. now rewrite Hno.
  - intros pre suf -> Hpre. rewrite (find_zero_first pre suf Hpre).
    destruct (Z.eqb_spec (Z.of_nat (length pre)) (-1)); [lia|].
    rewrite Nat2Z.id.
    now destruct (firstn_skipn_app pre (x00 :: suf) (length pre) eq_refl)
      as [-> _].
  - intros q c''.
    destruct (Z.eqb_spec (PyBytes.find_zero d) (-1)) as [E|E]; [discriminate|].
    intros _. destruct (find_zero_split d E) as (pre & suf & -> & _).
    apply in_or_app. right. now left.
Qed.

Lemma recv_text_packet_terminator_witness :
  _recv_text_packet stream_read (client_on 0 frame_unterminated)
  = (Raise (ValueError NotZeroTerminated), client_on 0 [])
  /\ _recv_text_packet stream_read (client_on 0 (frame_hi x00))
     = (Ok (mkPacket 7 (Int 0) (Bytes [x68; x69])), client_on 0 []).
Proof.
  split.
  - destruct (recv_text_packet_terminator Stream stream_read
                (client_on 0 frame_unterminated) (client_on 0 [])
                (mkPacket 7 (Int 0) (Bytes [x68; x69])) [x68; x69]
                eq_refl eq_refl) as (H & _).
    apply H. intros [E|[E|[]]]; discriminate E.
  - destruct (recv_text_packet_terminator Stream stream_read
                (client_on 0 (frame_hi x00)) (client_on 0 [])
                (mkPacket 7 (Int 0) (Bytes [x68; x69; x00])) [x68; x69; x00]
                eq_refl eq_refl) as (_ & H & _).
    apply (H [x68; x69] []); [reflexivity|].
    intros [E|[E|[]]]; discriminate E.
Defined.

(** ** What the methods leave of the client *)

Lemma recv_packet_keeps (Reader : Type) (read : nat -> Reader -> bytes * Reader)
      (c : RCONClient Reader) :
  exists r, snd (_recv_packet read c) = with_reader r c.
Proof.
  rewrite recv_packet_eq. destruct (read 4%nat (_reader c)) as [nb r1].
  destruct (negb (length nb =? 4)%nat); [now exists r1|]. cbv zeta.
  destruct (PyInt.from_bytes nb false <? 9); [now exists r1|].
  destruct (1455 <? PyInt.from_bytes nb false); [now exists r1|].
  destruct (read (Z.to_nat (PyInt.from_bytes nb false)) r1) as [body r2].
  destruct (negb (Z.of_nat (length body) =? PyInt.from_bytes nb false));
    now exists r2.
Qed.

Lemma recv_text_packet_keeps (Reader : Type)
      (read : nat -> Reader -> bytes * Reader) (c : RCONClient Reader) :
  exists r, snd (_recv_text_packet read c) = with_reader r c.
Proof.
  rewrite recv_text_packet_eq.
  destruct (recv_packet_keeps Reader read c) as [r Hr].
  destruct (_recv_packet read c) as [[p|e] c']; cbn [snd] in Hr; subst c';
    [|now exists r].
  destruct (data p) as [s|d|]; try now exists r.
  destruct (PyBytes.find_zero d =? -1); now exists r.
Qed.

Lemma send_packet_keeps (Reader : Type) (p : Packet) (c : RCONClient Reader) :
  exists w, snd (_send_packet p c) = with_writer w c.
Proof.
  assert (Hc : c = with_writer (_writer c) c) by now destruct c.
  unfold _send_packet, bind, lift.
  destruct (_build_packet p) as [payload|e]; [|exists (_writer c); exact Hc].
  destruct (PyInt.to_bytes4 (Z.of_nat (length payload)) false) as [len|e];
    [|exists (_writer c); exact Hc].
  unfold writer_write. now eexists.
Qed.

Lemma send_text_packet_keeps (Reader : Type) (p : Packet)
      (c : RCONClient Reader) :
  exists w, snd (_send_text_packet p c) = with_writer w c.
Proof.
  assert (Hc : c = with_writer (_writer c) c) by now destruct c.
  unfold _send_text_packet, bind, lift.
  destruct (must_str p) as [s|e]; [|exists (_writer c); exact Hc].
  destruct (PyStr.encode s) as [b|e]; [|exists (_writer c); exact Hc].
  apply send_packet_keeps.
Qed.

Lemma execute_eq (Reader : Type) (read : nat -> Reader -> bytes * Reader)
      (fuel : nat) (command : str) (c c1 c2 : RCONClient Reader)
      (packet : Packet) :
  _send_text_packet (mkPacket (_i c) (Enum EXECUTE) (Str command))
                    (with_i (_i c + 1) c) = (Ok tt, c1) ->
  _recv_text_packet read c1 = (Ok packet, c2) ->
  execute read (S fuel) command c =
  Some (if negb (request_id packet =? _i c) then
          Raise (ValueError (InvalidRequestID (_i c) (request_id packet)))
        else if negb (int_of (type packet) =? 0) then
          Raise (ValueError (InvalidResponseType 0 (int_of (type packet))))
        else must_bytes packet,
        c2).
Proof.
  intros Hsend Hrecv. unfold execute, take_id. rewrite Hsend.
  rewrite execute_loop_once.
  pose proof Hrecv as Hd. apply recv_text_packet_data in Hd.
  destruct Hd as (d & Hd & _).
  rewrite (execute_body_eq Reader read (_i c) (mkLocals c1 []) packet c2 d
             Hrecv Hd).
  unfold must_bytes. rewrite Hd.
  destruct (negb (request_id packet =? _i c)); [reflexivity|].
  destruct (negb (int_of (type packet) =? 0)); reflexivity.
Qed.

(** C2: every packet the receiver accepts carries at most 1446 payload bytes
    (1455 minus 8 header bytes and the pad), fewer than 4096; so the body of
    [execute]'s loop always ends in [break] or in an exception, one iteration
    is all [execute] ever runs, it always finishes, and a successful call
    returns the payload of the one text packet it read. *)
Theorem execute_single_fragment :
  forall (Reader : Type) (read : nat -> Reader -> bytes * Reader)
         (c : RCONClient Reader),
    (forall (p : Packet) (c' : RCONClient Reader),
        _recv_packet read c = (Ok p, c') ->
        exists d, data p = Bytes d /\ (length d <= 1446)%nat
                  /\ (length d < 4096)%nat)
    /\ (forall (i : Z) (res : bytes),
           fst (execute_body read i (mkLocals c res)) <> Ok false)
    /\ (forall (fuel : nat) (command : str),
           execute read (S fuel) command c = execute read 1 command c
           /\ exists r c', execute read 1 command c = Some (r, c'))
    /\ (forall (fuel : nat) (command : str) (out : bytes)
               (c' : RCONClient Reader),
           execute read fuel command c = Some (Ok out, c') ->
           exists c1 packet,
             _send_text_packet (mkPacket (_i c) (Enum EXECUTE) (Str command))
                               (with_i (_i c + 1) c) = (Ok tt, c1)
             /\ _recv_text_packet read c1 = (Ok packet, c')
             /\ data packet = Bytes out).
Proof.
  intros Reader read c. split; [|split; [|split]].
  - intros p c' H. apply recv_packet_data in H.
    destruct H as (d & Hd & Hlen). exists d. repeat split; [assumption|lia..].
  - intros i res. apply execute_body_breaks.
  - intros fuel command. split; [apply execute_fuel | apply execute_returns].
  - intros fuel command out c' H.
    destruct fuel as [|fuel].
    { unfold execute, take_id in H.
      destruct (_send_text_packet _ _) as [[u|e] c1]; discriminate. }
    destruct (_send_text_packet (mkPacket (_i c) (Enum EXECUTE) (Str command))
                                (with_i (_i c + 1) c)) as [[[]|e] c1] eqn:Hs.
    2:{ unfold execute, take_id in H. rewrite Hs in H. discriminate. }
    destruct (_recv_text_packet read c1) as [[packet|e] c2] eqn:Hr.
    2:{ unfold execute, take_id in H. rewrite Hs in H.
        rewrite execute_loop_once in H. unfold execute_body in H.
        cbn [self_] in H. rewrite Hr in H. discriminate. }
    rewrite (execute_eq Reader read fuel command c c1 c2 packet Hs Hr) in H.
    exists c1, packet. split; [reflexivity|].
    destruct (negb (request_id packet =? _i c)); [discriminate|].
    destruct (negb (int_of (type packet) =? 0)); [discriminate|].
    unfold must_bytes in H. destruct (data packet) as [s|d|]; try discriminate.
    injection H as <- <-. now split.
Qed.

Lemma execute_single_fragment_witness :
  (exists d, data (mkPacket 7 (Int 0) (Bytes [x68; x69; x00])) = Bytes d
             /\ (length d <= 1446)%nat /\ (length d < 4096)%nat)
  /\ (exists c1 packet,
         _send_text_packet (mkPacket 1 (Enum EXECUTE) (Str help))
                           (with_i 2 (client_on 1 (server_frame 1 0 [x68; x69])))
         = (Ok tt, c1)
         /\ _recv_text_packet stream_read c1
            = (Ok packet,
               snd (_send_text_packet (mkPacket 1 (Enum EXECUTE) (Str help))
                                      (client_on 2 [])))
         /\ data packet = Bytes [x68; x69]).
Proof.
  split.
  - destruct (execute_single_fragment Stream stream_read
                (client_on 0 (frame_hi x00))) as (H & _).
    apply (H _ (client_on 0 [])). reflexivity.
  - destruct (execute_single_fragment Stream stream_read
                (client_on 1 (server_frame 1 0 [x68; x69])))
      as (_ & _ & _ & H).
    apply (H 3%nat help [x68; x69]). reflexivity.
Defined.

(** C8: in [execute]'s loop a response whose request id is not the one sent
    raises "Invalid request ID" and leaves the accumulator as it was; one with
    the right id and a type other than [RESPONSE] (0) raises "Invalid response
    type", the accumulator again untouched; only a response passing both
    checks has its payload appended.  [execute] itself ends accordingly. *)
Theorem execute_body_checks :
  forall (Reader : Type) (read : nat -> Reader -> bytes * Reader)
         (i : Z) (l : Locals Reader) (packet : Packet)
         (c' : RCONClient Reader),
    _recv_text_packet read (self_ l) = (Ok packet, c') ->
    (request_id packet <> i ->
     execute_body read i l =
     (Raise (ValueError (InvalidRequestID i (request_id packet))),
      mkLocals c' (result l)))
    /\ (request_id packet = i -> int_of (type packet) <> value RESPONSE ->
        execute_body read i l =
        (Raise (ValueError (InvalidResponseType (value RESPONSE)
                                                (int_of (type packet)))),
         mkLocals c' (result l)))
    /\ (request_id packet = i -> int_of (type packet) = value RESPONSE ->
        exists payload,
          data packet = Bytes payload /\
          execute_body read i l =
          (Ok (length payload <? 4096)%nat,
           mkLocals c' (result l ++ payload)))
    /\ (forall (fuel : nat) (command : str) (c : RCONClient Reader),
           i = _i c ->
           _send_text_packet (mkPacket i (Enum EXECUTE) (Str command))
                             (with_i (i + 1) c) = (Ok tt, self_ l) ->
           execute read (S fuel) command c =
           Some (if negb (request_id packet =? i) then
                   Raise (ValueError (InvalidRequestID i (request_id packet)))
                 else if negb (int_of (type packet) =? value RESPONSE) then
                   Raise (ValueError
                            (InvalidResponseType (value RESPONSE)
                                                 (int_of (type packet))))
                 else must_bytes packet,
                 c')).
Proof.
  intros Reader read i l packet c' Hrecv.
  pose proof Hrecv as Hd. apply recv_text_packet_data in Hd.
  destruct Hd as (d & Hd & _).
  pose proof (execute_body_eq Reader read i l packet c' d Hrecv Hd) as E.
  change (value RESPONSE) with 0.
  split; [|split; [|split]].
  - intro Hne. rewrite E.
    destruct (Z.eqb_spec (request_id packet) i); [contradiction|reflexivity].
  - intros Hid Hty. rewrite E, Hid, Z.eqb_refl. cbn [negb].
    destruct (Z.eqb_spec (int_of (type packet)) 0); [contradiction|reflexivity].
  - intros Hid Hty. exists d. split; [assumption|].
    rewrite E, Hid, Hty, !Z.eqb_refl. reflexivity.
  - intros fuel command c -> Hsend.
    exact (execute_eq Reader read fuel command c (self_ l) c' packet
             Hsend Hrecv).
Qed.

Lemma execute_body_checks_witness :
  execute_body stream_read 1 (mkLocals (awaiting (server_frame 9 0 hi)) [x41])
  = (Raise (ValueError (InvalidRequestID 1 9)), mkLocals (awaiting []) [x41])
  /\ execute_body stream_read 1
       (mkLocals (awaiting (server_frame 1 2 hi)) [x41])
     = (Raise (ValueError (InvalidResponseType 0 2)),
        mkLocals (awaiting []) [x41])
  /\ (exists payload,
         data (mkPacket 1 (Int 0) (Bytes hi)) = Bytes payload /\
         execute_body stream_read 1
           (mkLocals (awaiting (server_frame 1 0 hi)) [x41])
         = (Ok (length payload <? 4096)%nat,
            mkLocals (awaiting []) ([x41] ++ payload)))
  /\ execute stream_read 1 help (client_on 1 (server_frame 9 0 hi))
     = Some (Raise (ValueError (InvalidRequestID 1 9)), awaiting []).
Proof.
  repeat apply conj.
  - destruct (execute_body_checks Stream stream_read 1
                (mkLocals (awaiting (server_frame 9 0 hi)) [x41])
                (mkPacket 9 (Int 0) (Bytes hi)) (awaiting []) eq_refl)
      as (H & _).
    apply H. discriminate.
  - destruct (execute_body_checks Stream stream_read 1
                (mkLocals (awaiting (server_frame 1 2 hi)) [x41])
                (mkPacket 1 (Int 2) (Bytes hi)) (awaiting []) eq_refl)
      as (_ & H & _).
    apply H; [reflexivity | discriminate].
  - destruct (execute_body_checks Stream stream_read 1
                (mkLocals (awaiting (server_frame 1 0 hi)) [x41])
                (mkPacket 1 (Int 0) (Bytes hi)) (awaiting []) eq_refl)
      as (_ & _ & H & _).
    apply H; reflexivity.
  - destruct (execute_body_checks Stream stream_read 1
                (mkLocals (awaiting (server_frame 9 0 hi)) [])
                (mkPacket 9 (Int 0) (Bytes hi)) (awaiting []) eq_refl)
      as (_ & _ & _ & H).
    apply (H 0%nat help (client_on 1 (server_frame 9 0 hi)));
      reflexivity.
Defined.

(** C4: once the login request is sent and a response packet is decoded,
    [login] raises "Invalid request ID" exactly when the response's request
    id differs from the id sent (whatever the id is, -1 or not), and returns
    normally, which is all there is to being authenticated, exactly when the
    ids agree; the type of the response plays no part. *)
Theorem login_outcome :
  forall (Reader : Type) (read : nat -> Reader -> bytes * Reader)
         (password : str) (c c1 c2 : RCONClient Reader) (p : Packet),
    _send_text_packet (mkPacket (_i c) (Enum LOGIN) (Str password))
                      (with_i (_i c + 1) c) = (Ok tt, c1) ->
    _recv_packet read c1 = (Ok p, c2) ->
    (request_id p <> _i c <->
     login read password c =
     (Raise (ValueError (InvalidRequestID (_i c) (request_id p))), c2))
    /\ (request_id p = _i c <-> login read password c = (Ok tt, c2))
    /\ login read password c =
       (if request_id p =? _i c then Ok tt
        else Raise (ValueError (InvalidRequestID (_i c) (request_id p))),
        c2).
Proof.
  intros Reader read password c c1 c2 p Hsend Hrecv.
  assert (E : forall q, _recv_packet read c1 = (Ok q, c2) ->
              login read password c =
              (if request_id q =? _i c then Ok tt
               else Raise (ValueError (InvalidRequestID (_i c) (request_id q))),
               c2)).
  { intros q Hq. unfold login, bind at 1, take_id at 1.
    unfold bind at 1. rewrite Hsend. unfold bind at 1. rewrite Hq.
    now destruct (request_id q =? _i c). }
  split; [|split].
  - rewrite (E p Hrecv).
    destruct (Z.eqb_spec (request_id p) (_i c)); split; intro H;
      try reflexivity; try contradiction; try assumption; discriminate H.
  - rewrite (E p Hrecv).
    destruct (Z.eqb_spec (request_id p) (_i c)); split; intro H;
      try reflexivity; try contradiction; try assumption; discriminate H.
  - exact (E p Hrecv).
Qed.

Lemma login_outcome_witness :
  login stream_read secret (client_on 0 (server_frame 0 77 []))
  = (Ok tt, authenticating [])
  /\ login stream_read secret (client_on 0 (server_frame (-1) 0 []))
     = (Raise (ValueError (InvalidRequestID 0 (-1))), authenticating [])
  /\ login stream_read secret (client_on 0 (server_frame 5 0 []))
     = (Raise (ValueError (InvalidRequestID 0 5)), authenticating []).
Proof.
  repeat apply conj.
  - destruct (login_outcome Stream stream_read secret
                (client_on 0 (server_frame 0 77 []))
                (authenticating (server_frame 0 77 [])) (authenticating [])
                (mkPacket 0 (Int 77) (Bytes [x00])) eq_refl eq_refl)
      as (_ & H & _).
    apply H. reflexivity.
  - destruct (login_outcome Stream stream_read secret
                (client_on 0 (server_frame (-1) 0 []))
                (authenticating (server_frame (-1) 0 [])) (authenticating [])
                (mkPacket (-1) (Int 0) (Bytes [x00])) eq_refl eq_refl)
      as (H & _).
    apply H. discriminate.
  - destruct (login_outcome Stream stream_read secret
                (client_on 0 (server_frame 5 0 []))
                (authenticating (server_frame 5 0 [])) (authenticating [])
                (mkPacket 5 (Int 0) (Bytes [x00])) eq_refl eq_refl)
      as (H & _).
    apply H. discriminate.
Defined.

(** ** The request-id counter *)

Lemma login_counter (Reader : Type) (read : nat -> Reader -> bytes * Reader)
      (password : str) (c : RCONClient Reader) :
  _i (snd (login read password c)) = _i c + 1.
Proof.
  unfold login, bind at 1, take_id at 1. unfold bind at 1.
  destruct (send_text_packet_keeps Reader
              (mkPacket (_i c) (Enum LOGIN) (Str password))
              (with_i (_i c + 1) c)) as [w Hw].
  destruct (_send_text_packet _ (with_i (_i c + 1) c)) as [[u|e] c1];
    cbn [snd] in Hw; subst c1; [|reflexivity].
  unfold bind.
  destruct (recv_packet_keeps Reader read
              (with_writer w (with_i (_i c + 1) c))) as [r Hr].
  destruct (_recv_packet read _) as [[p|e] c2]; cbn [snd] in Hr; subst c2;
    [|reflexivity].
  destruct (negb (request_id p =? _i c)); reflexivity.
Qed.

Lemma execute_counter (Reader : Type) (read : nat -> Reader -> bytes * Reader)
      (fuel : nat) (command : str) (c : RCONClient Reader) :
  exists r c',
    execute read (S fuel) command c = Some (r, c') /\ _i c' = _i c + 1.
Proof.
  unfold execute, take_id.
  destruct (send_text_packet_keeps Reader
              (mkPacket (_i c) (Enum EXECUTE) (Str command))
              (with_i (_i c + 1) c)) as [w Hw].
  destruct (_send_text_packet _ (with_i (_i c + 1) c)) as [[u|e] c1];
    cbn [snd] in Hw; subst c1; [|now eauto].
  rewrite execute_loop_once. unfold execute_body. cbn [self_ result].
  destruct (recv_text_packet_keeps Reader read
              (with_writer w (with_i (_i c + 1) c))) as [r Hr].
  destruct (_recv_text_packet read _) as [[p|e] c2]; cbn [snd] in Hr; subst c2;
    [|now eauto].
  destruct (negb (request_id p =? _i c)); [now eauto|].
  destruct (negb (int_of (type p) =? value RESPONSE)); [now eauto|].
  destruct (must_bytes p); now eauto.
Qed.

Lemma login_writes (Reader : Type) (read : nat -> Reader -> bytes * Reader)
      (password : str) (e : bytes) (c : RCONClient Reader) :
  PyStr.encode password = Ok e -> (length e <= 4095)%nat -> int32 (_i c) ->
  _writer (snd (login read password c)) =
  _writer c ++ PyInt.le_digits 4 (Z.of_nat (length e) + 10)
  ++ PyInt.le_digits 4 (_i c) ++ PyInt.le_digits 4 (value LOGIN)
  ++ e ++ [x00; x00].
Proof.
  intros He Hlen Hi. unfold login, bind at 1, take_id at 1. unfold bind at 1.
  rewrite (send_text_packet_ok Reader
             (mkPacket (_i c) (Enum LOGIN) (Str password)) password e
             (with_i (_i c + 1) c) eq_refl He Hlen Hi);
    [|vm_compute; split; [discriminate|reflexivity]].
  unfold bind.
  destruct (recv_packet_keeps Reader read
              (with_writer
                 (_writer (with_i (_i c + 1) c) ++
                  PyInt.le_digits 4 (Z.of_nat (length e) + 10) ++
                  PyInt.le_digits 4
                    (request_id (mkPacket (_i c) (Enum LOGIN) (Str password))) ++
                  PyInt.le_digits 4
                    (int_of (type (mkPacket (_i c) (Enum LOGIN) (Str password)))) ++
                  e ++ [x00; x00])
                 (with_i (_i c + 1) c))) as [r Hr].
  destruct (_recv_packet read _) as [[p|ex] c2]; cbn [snd] in Hr; subst c2;
    [|reflexivity].
  destruct (negb (request_id p =? _i c)); reflexivity.
Qed.

Lemma execute_writes (Reader : Type) (read : nat -> Reader -> bytes * Reader)
      (fuel : nat) (command : str) (e : bytes) (c : RCONClient Reader) :
  PyStr.encode command = Ok e -> (length e <= 4095)%nat -> int32 (_i c) ->
  exists r c',
    execute read (S fuel) command c = Some (r, c') /\
    _writer c' =
    _writer c ++ PyInt.le_digits 4 (Z.of_nat (length e) + 10)
    ++ PyInt.le_digits 4 (_i c) ++ PyInt.le_digits 4 (value EXECUTE)
    ++ e ++ [x00; x00].
Proof.
  intros He Hlen Hi. unfold execute, take_id.
  rewrite (send_text_packet_ok Reader
             (mkPacket (_i c) (Enum EXECUTE) (Str command)) command e
             (with_i (_i c + 1) c) eq_refl He Hlen Hi);
    [|vm_compute; split; [discriminate|reflexivity]].
  rewrite execute_loop_once. unfold execute_body. cbn [self_ result].
  match goal with
  | |- context [_recv_text_packet read ?s] =>
      destruct (recv_text_packet_keeps Reader read s) as [r Hr];
      destruct (_recv_text_packet read s) as [[p|ex] c2]
  end; cbn [snd] in Hr; subst c2; [|now eauto].
  destruct (negb (request_id p =? _i c)); [now eauto|].
  destruct (negb (int_of (type p) =? value RESPONSE)); [now eauto|].
  destruct (must_bytes p); now eauto.
Qed.

(** C6: the client has one counter, [_i], used by [login] and [execute]
    alike.  Each call takes the current value as its request id and leaves
    the counter one higher, whether the call then succeeds or raises; [login]
    never resets it, so an [execute] after a [login] uses the next id.  After
    the login that sent id 0 and got [{id=0, type=0, data=""}] back, the
    counter is 1 and that is the id the next request takes. *)
Theorem request_id_counter :
  forall (Reader : Type) (read : nat -> Reader -> bytes * Reader)
         (fuel : nat) (password command : str) (c : RCONClient Reader),
    _i (snd (login read password c)) = _i c + 1
    /\ (exists r c',
           execute read (S fuel) command c = Some (r, c')
           /\ _i c' = _i c + 1)
    /\ (exists r c',
           execute read (S fuel) command (snd (login read password c))
           = Some (r, c')
           /\ _i c' = _i c + 2)
    /\ (forall e : bytes,
           PyStr.encode password = Ok e -> (length e <= 4095)%nat ->
           int32 (_i c) ->
           _writer (snd (login read password c)) =
           _writer c ++ PyInt.le_digits 4 (Z.of_nat (length e) + 10)
           ++ PyInt.le_digits 4 (_i c) ++ PyInt.le_digits 4 (value LOGIN)
           ++ e ++ [x00; x00])
    /\ (forall e : bytes,
           PyStr.encode command = Ok e -> (length e <= 4095)%nat ->
           int32 (_i c) ->
           exists r c',
             execute read (S fuel) command c = Some (r, c') /\
             _writer c' =
             _writer c ++ PyInt.le_digits 4 (Z.of_nat (length e) + 10)
             ++ PyInt.le_digits 4 (_i c) ++ PyInt.le_digits 4 (value EXECUTE)
             ++ e ++ [x00; x00])
    /\ (exists c1,
           login stream_read secret (client_on 0 (server_frame 0 0 []))
           = (Ok tt, c1)
           /\ _i c1 = 1 /\ fst (take_id c1) = Ok 1).
Proof.
  intros Reader read fuel password command c.
  split; [|split; [|split; [|split; [|split]]]].
  - apply login_counter.
  - apply execute_counter.
  - destruct (execute_counter Reader read fuel command
                (snd (login read password c))) as (r & c' & E & Hi).
    exists r, c'. split; [exact E|].
    rewrite Hi, login_counter. lia.
  - intros e. apply login_writes.
  - intros e. apply execute_writes.
  - eexists. split; [vm_compute; reflexivity|]. split; reflexivity.
Qed.

Lemma request_id_counter_witness :
  _writer (snd (login stream_read secret (client_on 0 (server_frame 5 0 []))))
  = [x10; x00; x00; x00; x00; x00; x00; x00; x03; x00; x00; x00;
     x73; x65; x63; x72; x65; x74; x00; x00]
  /\ (exists r c',
         execute stream_read 1 help (client_on 1 []) = Some (r, c') /\
         _writer c'
         = [x0e; x00; x00; x00; x01; x00; x00; x00; x02; x00; x00; x00;
            x68; x65; x6c; x70; x00; x00]).
Proof.
  split.
  - destruct (request_id_counter Stream stream_read 0 secret help
                (client_on 0 (server_frame 5 0 []))) as (_ & _ & _ & H & _).
    apply (H [x73; x65; x63; x72; x65; x74]).
    + reflexivity.
    + cbn [length]. lia.
    + vm_compute. split; [discriminate|reflexivity].
  - destruct (request_id_counter Stream stream_read 0 secret help
                (client_on 1 [])) as (_ & _ & _ & _ & H & _).
    apply (H [x68; x65; x6c; x70]).
    + reflexivity.
    + cbn [length]. lia.
    + vm_compute. split; [discriminate|reflexivity].
Defined.

(** C7: a payload whose bytes number 4097 or more is refused with "too large
    data", one of exactly 4096 bytes is built (for a packet whose id and type
    are 32-bit); the text sender appends the terminator first, so it sends
    text of up to 4095 encoded bytes and refuses 4096 or more. *)
Theorem payload_size_limit :
  forall (p : Packet) (d : bytes),
    encoded (data p) = Ok d ->
    ((4097 <= length d)%nat ->
     _build_packet p = Raise (ValueError (TooLargeData (length d)))
     /\ PayloadTooLarge (ValueError (TooLargeData (length d))))
    /\ (length d = 4096%nat ->
        int32 (request_id p) -> int32 (int_of (type p)) ->
        _build_packet p =
        Ok (PyInt.le_digits 4 (request_id p)
            ++ PyInt.le_digits 4 (int_of (type p)) ++ d ++ [x00]))
    /\ (forall (Reader : Type) (c : RCONClient Reader) (s : str),
           data p = Str s ->
           ((length d <= 4095)%nat ->
            int32 (request_id p) -> int32 (int_of (type p)) ->
            fst (_send_text_packet p c) = Ok tt)
           /\ ((4096 <= length d)%nat ->
               fst (_send_text_packet p c) =
               Raise (ValueError (TooLargeData (length d + 1)))
               /\ PayloadTooLarge (ValueError (TooLargeData (length d + 1))))).
Proof.
  intros p d Hd. split; [|split].
  - intro Hlen. split; [|exact I]. apply build_packet_too_large; [exact Hd|lia].
  - intros Hlen Hid Hty. apply build_packet_ok; try assumption. lia.
  - intros Reader c s Hs. rewrite Hs in Hd. cbn [encoded] in Hd. split.
    + intros Hlen Hid Hty.
      now rewrite (send_text_packet_ok Reader p s d c Hs Hd Hlen Hid Hty).
    + intro Hlen. split; [|exact I].
      now rewrite (send_text_packet_too_large Reader p s d c Hs Hd Hlen).
Qed.

Lemma payload_size_limit_witness :
  _build_packet (mkPacket 1 (Int 2) (Bytes (repeat x41 4097)))
  = Raise (ValueError (TooLargeData (length (repeat x41 4097))))
  /\ _build_packet (mkPacket 1 (Int 2) (Bytes (repeat x41 4096)))
     = Ok (PyInt.le_digits 4 1 ++ PyInt.le_digits 4 2
           ++ repeat x41 4096 ++ [x00])
  /\ fst (_send_text_packet (mkPacket 1 (Enum EXECUTE) (Str (repeat 97 4095)))
                            (client_on 2 []))
     = Ok tt
  /\ fst (_send_text_packet (mkPacket 1 (Enum EXECUTE) (Str (repeat 97 4096)))
                            (client_on 2 []))
     = Raise (ValueError (TooLargeData (length (repeat x61 4096) + 1))).
Proof.
  repeat apply conj.
  - destruct (payload_size_limit
                (mkPacket 1 (Int 2) (Bytes (repeat x41 4097)))
                (repeat x41 4097) eq_refl) as (H & _).
    apply H. rewrite repeat_length. lia.
  - destruct (payload_size_limit
                (mkPacket 1 (Int 2) (Bytes (repeat x41 4096)))
                (repeat x41 4096) eq_refl) as (_ & H & _).
    apply H.
    + now rewrite repeat_length.
    + vm_compute. split; [discriminate|reflexivity].
    + vm_compute. split; [discriminate|reflexivity].
  - assert (E : encoded (Str (repeat 97 4095)) = Ok (repeat x61 4095))
      by (vm_compute; reflexivity).
    destruct (payload_size_limit
                (mkPacket 1 (Enum EXECUTE) (Str (repeat 97 4095)))
                (repeat x61 4095) E) as (_ & _ & H).
    destruct (H Stream (client_on 2 []) (repeat 97 4095) eq_refl) as [Hok _].
    apply Hok.
    + rewrite repeat_length. lia.
    + vm_compute. split; [discriminate|reflexivity].
    + vm_compute. split; [discriminate|reflexivity].
  - assert (E : encoded (Str (repeat 97 4096)) = Ok (repeat x61 4096))
      by (vm_compute; reflexivity).
    destruct (payload_size_limit
                (mkPacket 1 (Enum EXECUTE) (Str (repeat 97 4096)))
                (repeat x61 4096) E) as (_ & _ & H).
    destruct (H Stream (client_on 2 []) (repeat 97 4096) eq_refl) as [_ Hbad].
    apply Hbad. rewrite repeat_length. lia.
Defined.

Lemma recv_text_packet_cut (Reader : Type)
      (read : nat -> Reader -> bytes * Reader) (c : RCONClient Reader) :
  _recv_text_packet read c =
  match _recv_packet read c with
  | (Ok p, c') => (cut_at_terminator p, c')
  | (Raise e, c') => (Raise e, c')
  end.
Proof.
  unfold _recv_text_packet, bind at 1.
  destruct (_recv_packet read c) as [[p|e] c']; [|reflexivity].
  unfold bind, lift, cut_at_terminator.
  destruct (must_bytes p) as [d|e]; [|reflexivity]. cbn [bindR].
  destruct (PyBytes.find_zero d =? -1); reflexivity.
Qed.

(** C3, as the code has it: for 32-bit request id and type, a payload of at
    most 4096 bytes built by [_build_packet] is decoded, by the [Packet(...)]
    of [_recv_packet], to the same id, type and payload; and text whose UTF-8
    encoding has at most 4095 bytes and no zero byte, built as
    [_send_text_packet] builds it, is decoded and cut as [_recv_text_packet]
    does to the same id and type and the encoded text. *)
Theorem codec_round_trip :
  forall rid ty : Z,
    int32 rid -> int32 ty ->
    (forall d : bytes, (length d <= 4096)%nat -> generic_round_trip rid ty d)
    /\ (forall (s : str) (e : bytes),
           PyStr.encode s = Ok e -> (length e <= 4095)%nat -> ~ In x00 e ->
           text_round_trip rid ty s).
Proof.
  intros rid ty Hid Hty. split.
  - intros d Hlen. unfold generic_round_trip.
    rewrite (build_packet_ok (mkPacket rid (Int ty) (Bytes d)) d eq_refl
               Hlen Hid Hty).
    cbn [bindR request_id type int_of].
    rewrite packet_of_body_fields by apply le_digits_length.
    now rewrite !from_bytes_signed.
  - intros s e He Hlen Hno. exists e. split; [exact He|].
    unfold build_text_packet. cbn [must_str data bindR]. rewrite He.
    cbn [bindR request_id type].
    rewrite (build_packet_ok (mkPacket rid (Int ty) (Bytes (e ++ [x00])))
               (e ++ [x00]) eq_refl);
      [|rewrite length_app; cbn [length]; lia|exact Hid|exact Hty].
    cbn [bindR request_id type int_of].
    rewrite packet_of_body_fields by apply le_digits_length.
    unfold cut_at_terminator. cbn [must_bytes data bindR request_id type].
    rewrite (find_zero_first e [] Hno).
    destruct (Z.eqb_spec (Z.of_nat (length e)) (-1)); [lia|].
    rewrite Nat2Z.id. unfold PyBytes.slice.
    change (skipn 0 (e ++ [x00])) with (e ++ [x00]). rewrite Nat.sub_0_r.
    destruct (firstn_skipn_app e [x00] (length e) eq_refl) as [-> _].
    now rewrite !from_bytes_signed.
Qed.

Lemma codec_round_trip_witness :
  generic_round_trip 1 2 hi /\ text_round_trip 1 2 help.
Proof.
  destruct (codec_round_trip 1 2) as [Hg Ht].
  - vm_compute. split; [discriminate|reflexivity].
  - vm_compute. split; [discriminate|reflexivity].
  - split.
    + apply Hg. cbn [length hi]. lia.
    + apply (Ht help [x68; x65; x6c; x70]).
      * reflexivity.
      * cbn [length]. lia.
      * intros [E|[E|[E|[E|[]]]]]; discriminate E.
Defined.

(** C3, as stated, fails on the code for the text pair: the text [a\0b],
    three bytes encoded, comes back as [a], cut at its zero byte; and text of
    exactly 4096 encoded bytes is not encoded at all, the terminator making
    it 4097. *)
Lemma codec_round_trip_fails :
  int32 0
  /\ PyStr.encode [97; 0; 98] = Ok [x61; x00; x62]
  /\ (length [x61; x00; x62] <= 4096)%nat
  /\ (body <- build_text_packet (mkPacket 0 (Int 0) (Str [97; 0; 98])) ;;
      cut_at_terminator (packet_of_body body))
     = Ok (mkPacket 0 (Int 0) (Bytes [x61]))
  /\ ~ text_round_trip 0 0 [97; 0; 98]
  /\ PyStr.encode (repeat 97 4096) = Ok (repeat x61 4096)
  /\ (length (repeat x61 4096) <= 4096)%nat
  /\ build_text_packet (mkPacket 0 (Int 0) (Str (repeat 97 4096)))
     = Raise (ValueError (TooLargeData 4097))
  /\ ~ text_round_trip 0 0 (repeat 97 4096).
Proof.
  split; [|split; [|split; [|split; [|split; [|split; [|split; [|split]]]]]]].
  - vm_compute. split; [discriminate|reflexivity].
  - reflexivity.
  - cbn [length]. lia.
  - vm_compute. reflexivity.
  - intros (e & He & H). vm_compute in He. injection He as <-.
    vm_compute in H. discriminate H.
  - vm_compute. reflexivity.
  - rewrite repeat_length. lia.
  - vm_compute. reflexivity.
  - intros (e & He & H).
    assert (B : build_text_packet (mkPacket 0 (Int 0) (Str (repeat 97 4096)))
                = Raise (ValueError (TooLargeData 4097)))
      by (vm_compute; reflexivity).
    rewrite B in H. discriminate H.
Qed.

(** C1: the server answers request 1 with a fragment of 4096 payload bytes
    followed by one of 10.  The first frame declares 4106 bytes, more than the
    1455 [_recv_packet] allows, so [execute] raises "too big packet" on it and
    never reads the second fragment. *)
Theorem execute_fragmented_response :
  forall fuel : nat,
    execute stream_read (S fuel) help
      (client_on 1 (server_frame 1 0 (repeat x41 4096)
                    ++ server_frame 1 0 (repeat x42 10)))
    = Some (Raise (ValueError (TooBigPacket 4106)),
            awaiting (skipn 4 (server_frame 1 0 (repeat x41 4096))
                      ++ server_frame 1 0 (repeat x42 10))).
Proof.
  intro fuel. rewrite execute_fuel. vm_compute. reflexivity.
Qed.

(** * Further properties of the codec and the session *)

(** ** Building and sending *)

Lemma to_bytes4_signed_cases (z : Z) :
  (int32 z /\ PyInt.to_bytes4 z true = Ok (PyInt.le_digits 4 z))
  \/ (~ int32 z /\ PyInt.to_bytes4 z true = Raise OverflowError).
Proof.
  unfold int32, PyInt.to_bytes4.
  destruct (Z.leb_spec (- 2 ^ 31) z); destruct (Z.ltb_spec z (2 ^ 31));
    cbn [andb]; [left|right..]; split; try reflexivity; lia.
Qed.

Lemma encode_char_raises (c : Z) (e : Exception) :
  PyStr.encode_char c = Raise e -> e = UnicodeEncodeError.
Proof.
  unfold PyStr.encode_char.
  repeat match goal with
         | |- context [if ?b then _ else _] => destruct b
         end; intro H; try discriminate H; now injection H.
Qed.

Lemma encode_raises (s : str) (e : Exception) :
  PyStr.encode s = Raise e -> e = UnicodeEncodeError.
Proof.
  induction s as [|c s IH]; cbn [PyStr.encode]; [discriminate|].
  destruct (PyStr.encode_char c) as [b|e1] eqn:Ec; cbn [bindR].
  - destruct (PyStr.encode s) as [bs|e2]; cbn [bindR]; [discriminate|].
    intro H. injection H as <-. now apply IH.
  - intro H. injection H as <-. exact (encode_char_raises c e1 Ec).
Qed.

Lemma encoded_raises (dt : Data) (e : Exception) :
  encoded dt = Raise e -> e = TypeError \/ e = UnicodeEncodeError.
Proof.
  destruct dt as [s|d|]; cbn [encoded]; intro H.
  - right. exact (encode_raises s e H).
  - discriminate H.
  - left. now injection H.
Qed.

Lemma build_packet_cases (p : Packet) (d : bytes) :
  encoded (data p) = Ok d ->
  _build_packet p =
  if (4096 <? length d)%nat then Raise (ValueError (TooLargeData (length d)))
  else
    rid <- PyInt.to_bytes4 (request_id p) true ;;
    ty <- PyInt.to_bytes4 (int_of (type p)) true ;;
    Ok (rid ++ ty ++ d ++ [x00]).
Proof.
  intro Hd. unfold _build_packet. now rewrite Hd.
Qed.

Lemma build_packet_inv (p : Packet) (body : bytes) :
  _build_packet p = Ok body ->
  exists d,
    encoded (data p) = Ok d /\ (length d <= 4096)%nat /\
    int32 (request_id p) /\ int32 (int_of (type p)) /\
    body = PyInt.le_digits 4 (request_id p)
           ++ PyInt.le_digits 4 (int_of (type p)) ++ d ++ [x00].
Proof.
  destruct (encoded (data p)) as [d|e] eqn:Hd.
  2:{ unfold _build_packet. rewrite Hd. discriminate. }
  rewrite (build_packet_cases p d Hd).
  destruct (Nat.ltb_spec 4096 (length d)); [discriminate|].
  destruct (to_bytes4_signed_cases (request_id p)) as [[Hi ->]|[_ ->]];
    [|discriminate].
  destruct (to_bytes4_signed_cases (int_of (type p))) as [[Ht ->]|[_ ->]];
    [|discriminate].
  cbn [bindR]. intro E. injection E as <-.
  exists d. split; [reflexivity|]. split; [lia|].
  split; [exact Hi|]. split; [exact Ht|reflexivity].
Qed.

Lemma build_packet_raises (p : Packet) (e : Exception) :
  _build_packet p = Raise e ->
  e = TypeError \/ e = UnicodeEncodeError \/ e = OverflowError
  \/ exists n, e = ValueError (TooLargeData n) /\ (4096 < n)%nat.
Proof.
  destruct (encoded (data p)) as [d|e1] eqn:Hd.
  2:{ unfold _build_packet. rewrite Hd. cbn [bindR]. intro H.
      injection H as <-. destruct (encoded_raises _ _ Hd); tauto. }
  rewrite (build_packet_cases p d Hd).
  destruct (Nat.ltb_spec 4096 (length d)).
  { intro H'. injection H' as <-. right. right. right. now exists (length d). }
  destruct (to_bytes4_signed_cases (request_id p)) as [[_ ->]|[_ ->]];
    cbn [bindR].
  2:{ intro H'. injection H' as <-. tauto. }
  destruct (to_bytes4_signed_cases (int_of (type p))) as [[_ ->]|[_ ->]];
    cbn [bindR]; [discriminate|].
  intro H'. injection H' as <-. tauto.
Qed.

Lemma build_packet_raises_bytes (p : Packet) (d : bytes) (e : Exception) :
  data p = Bytes d -> _build_packet p = Raise e ->
  e = OverflowError
  \/ exists n, e = ValueError (TooLargeData n) /\ (4096 < n)%nat.
Proof.
  intros Hd H. destruct (build_packet_raises p e H) as [E|[E|E]];
    [| |exact E]; exfalso; subst e; unfold _build_packet in H;
    rewrite Hd in H; cbn [encoded bindR] in H;
    destruct (4096 <? length d)%nat; try discriminate H;
    destruct (PyInt.to_bytes4 (request_id p) true) as [x|y] eqn:E1;
    cbn [bindR] in H;
    try (destruct (to_bytes4_signed_cases (int_of (type p)))
          as [[_ E2]|[_ E2]]; rewrite E2 in H; discriminate H);
    destruct (to_bytes4_signed_cases (request_id p))
      as [[_ E2]|[_ E2]]; rewrite E2 in E1; try discriminate E1;
    injection E1 as <-; discriminate H.
Qed.

Lemma send_packet_cases (Reader : Type) (p : Packet) (c : RCONClient Reader) :
  _send_packet p c =
  match _build_packet p with
  | Ok body =>
      (Ok tt,
       with_writer
         (_writer c ++ PyInt.le_digits 4 (Z.of_nat (length body)) ++ body) c)
  | Raise e => (Raise e, c)
  end.
Proof.
  unfold _send_packet, bind, lift.
  destruct (_build_packet p) as [body|e] eqn:Hb; [|reflexivity].
  destruct (build_packet_inv p body Hb) as (d & _ & Hlen & _ & _ & ->).
  rewrite to_bytes4_unsigned; [reflexivity|].
  rewrite !length_app, !le_digits_length. cbn [length]. lia.
Qed.

Lemma send_text_packet_cases (Reader : Type) (p : Packet)
      (c : RCONClient Reader) :
  _send_text_packet p c =
  match must_str p with
  | Raise e => (Raise e, c)
  | Ok s =>
      match PyStr.encode s with
      | Raise e => (Raise e, c)
      | Ok e =>
          _send_packet
            (mkPacket (request_id p) (type p) (Bytes (e ++ [x00]))) c
      end
  end.
Proof.
  unfold _send_text_packet, bind, lift.
  destruct (must_str p) as [s|e]; [|reflexivity].
  destruct (PyStr.encode s) as [b|e]; reflexivity.
Qed.

Lemma send_packet_raise_keeps (Reader : Type) (p : Packet)
      (c c' : RCONClient Reader) (e : Exception) :
  _send_packet p c = (Raise e, c') -> c' = c /\ _build_packet p = Raise e.
Proof.
  rewrite send_packet_cases.
  destruct (_build_packet p) as [body|e1]; [discriminate|].
  intro H. injection H as <- <-. now split.
Qed.

Lemma send_text_packet_raise_keeps (Reader : Type) (p : Packet)
      (c c' : RCONClient Reader) (e : Exception) :
  _send_text_packet p c = (Raise e, c') -> c' = c.
Proof.
  rewrite send_text_packet_cases.
  destruct (must_str p) as [s|e1]; [|intro H; now injection H as _ <-].
  destruct (PyStr.encode s) as [b|e1]; [|intro H; now injection H as _ <-].
  intro H. now apply send_packet_raise_keeps in H.
Qed.

(** X1: a successful [_send_packet] appends exactly one frame to what was
    written: a 4-byte unsigned little-endian length, equal to the number of
    bytes that follow, then request id, type, payload and a zero pad byte; the
    payload has at most 4096 bytes, so the length is between 9 and 4105.
    Counter and reader are untouched. *)
Theorem send_packet_frame :
  forall (Reader : Type) (p : Packet) (c c' : RCONClient Reader) (u : unit),
    _send_packet p c = (Ok u, c') ->
    exists d,
      encoded (data p) = Ok d /\ (length d <= 4096)%nat /\
      c' = with_writer
             (_writer c
              ++ PyInt.le_digits 4 (Z.of_nat (length d) + 9)
              ++ PyInt.le_digits 4 (request_id p)
              ++ PyInt.le_digits 4 (int_of (type p)) ++ d ++ [x00]) c /\
      PyInt.from_bytes (PyInt.le_digits 4 (Z.of_nat (length d) + 9)) false
      = Z.of_nat (length (PyInt.le_digits 4 (request_id p)
                          ++ PyInt.le_digits 4 (int_of (type p))
                          ++ d ++ [x00])).
Proof.
  intros Reader p c c' u H. rewrite send_packet_cases in H.
  destruct (_build_packet p) as [body|e] eqn:Hb; [|discriminate].
  destruct (build_packet_inv p body Hb) as (d & Hd & Hlen & Hi & Ht & ->).
  apply (f_equal snd) in H. cbn [snd] in H. subst c'. exists d.
  assert (L : Z.of_nat (length (PyInt.le_digits 4 (request_id p)
                                ++ PyInt.le_digits 4 (int_of (type p))
                                ++ d ++ [x00]))
              = Z.of_nat (length d) + 9).
  { rewrite !length_app, !le_digits_length. cbn [length]. lia. }
  repeat split; try assumption.
  - now rewrite L.
  - rewrite L. apply from_bytes_unsigned. lia.
Qed.

Lemma send_packet_frame_witness :
  exists d,
    encoded (Bytes hi) = Ok d /\ (length d <= 4096)%nat /\
    snd (_send_packet (mkPacket 1 (Int 2) (Bytes hi)) (client_on 2 [x01]))
    = with_writer
        ([] ++ PyInt.le_digits 4 (Z.of_nat (length d) + 9)
         ++ PyInt.le_digits 4 1 ++ PyInt.le_digits 4 2 ++ d ++ [x00])
        (client_on 2 [x01]) /\
    PyInt.from_bytes (PyInt.le_digits 4 (Z.of_nat (length d) + 9)) false
    = Z.of_nat (length (PyInt.le_digits 4 1 ++ PyInt.le_digits 4 2
                        ++ d ++ [x00])).
Proof.
  exact (send_packet_frame Stream (mkPacket 1 (Int 2) (Bytes hi))
           (client_on 2 [x01])
           (snd (_send_packet (mkPacket 1 (Int 2) (Bytes hi))
                              (client_on 2 [x01])))
           tt eq_refl).
Defined.

Lemma send_text_packet_builds (Reader : Type) (p : Packet)
      (c : RCONClient Reader) :
  _send_text_packet p c =
  match build_text_packet p with
  | Ok body =>
      (Ok tt,
       with_writer
         (_writer c ++ PyInt.le_digits 4 (Z.of_nat (length body)) ++ body) c)
  | Raise e => (Raise e, c)
  end.
Proof.
  rewrite send_text_packet_cases. unfold build_text_packet.
  destruct (must_str p) as [s|e]; [|reflexivity]. cbn [bindR].
  destruct (PyStr.encode s) as [b|e]; [|reflexivity]. cbn [bindR].
  apply send_packet_cases.
Qed.

(** X2: when [_build_packet] raises, [_send_packet] raises the same
    exception before anything is handed to the writer, and the client is as
    it was; what [_build_packet] raises is a [TypeError] (data neither text
    nor bytes), a [UnicodeEncodeError], an [OverflowError] (id or type
    outside 32 bits) or "too large data" for a payload longer than 4096
    bytes. *)
Theorem send_packet_failure :
  forall (Reader : Type) (p : Packet) (c : RCONClient Reader)
         (e : Exception),
    _build_packet p = Raise e ->
    _send_packet p c = (Raise e, c)
    /\ (e = TypeError \/ e = UnicodeEncodeError \/ e = OverflowError
        \/ exists n, e = ValueError (TooLargeData n) /\ (4096 < n)%nat).
Proof.
  intros Reader p c e H. split.
  - rewrite send_packet_cases, H. reflexivity.
  - exact (build_packet_raises p e H).
Qed.

Lemma send_packet_failure_witness :
  _send_packet (mkPacket 1 (Int 2) Other) (client_on 2 hi)
  = (Raise TypeError, client_on 2 hi)
  /\ (TypeError = TypeError \/ TypeError = UnicodeEncodeError
      \/ TypeError = OverflowError
      \/ exists n, TypeError = ValueError (TooLargeData n) /\ (4096 < n)%nat).
Proof.
  exact (send_packet_failure Stream (mkPacket 1 (Int 2) Other)
           (client_on 2 hi) TypeError eq_refl).
Defined.

(** X3: when building the text packet raises, in [must_str], in the
    encoding of the text or in [_build_packet], [_send_text_packet] raises
    the same exception before anything is handed to the writer, and the
    client is as it was.  The exception is "Data is not str" (always so for
    data that is bytes), a [UnicodeEncodeError], an [OverflowError] or "too
    large data" with a length above 4096, the terminator counted. *)
Theorem send_text_packet_failure :
  forall (Reader : Type) (p : Packet) (c : RCONClient Reader)
         (e : Exception),
    build_text_packet p = Raise e ->
    _send_text_packet p c = (Raise e, c)
    /\ (e = ValueError DataIsNotStr \/ e = UnicodeEncodeError
        \/ e = OverflowError
        \/ exists n, e = ValueError (TooLargeData n) /\ (4096 < n)%nat)
    /\ (forall d : bytes, data p = Bytes d -> e = ValueError DataIsNotStr).
Proof.
  intros Reader p c e H. split; [|split].
  - rewrite send_text_packet_builds, H. reflexivity.
  - unfold build_text_packet, must_str in H.
    destruct (data p) as [s|d|]; cbn [bindR] in H;
      try (injection H as <-; tauto).
    destruct (PyStr.encode s) as [b|e1] eqn:Es; cbn [bindR] in H.
    + destruct (build_packet_raises_bytes
                  (mkPacket (request_id p) (type p) (Bytes (b ++ [x00])))
                  (b ++ [x00]) e eq_refl H); tauto.
    + injection H as <-. right. left. exact (encode_raises s e1 Es).
  - intros d Hd. unfold build_text_packet, must_str in H. rewrite Hd in H.
    cbn [bindR] in H. now injection H as <-.
Qed.

Lemma send_text_packet_failure_witness :
  _send_text_packet (mkPacket 1 (Int 2) (Bytes hi)) (client_on 2 hi)
  = (Raise (ValueError DataIsNotStr), client_on 2 hi)
  /\ ValueError DataIsNotStr = ValueError DataIsNotStr.
Proof.
  destruct (send_text_packet_failure Stream (mkPacket 1 (Int 2) (Bytes hi))
              (client_on 2 hi) (ValueError DataIsNotStr) eq_refl)
    as (H1 & _ & H3).
  split; [exact H1|exact (H3 hi eq_refl)].
Defined.

(** X4: for a packet whose data gives the bytes [d], [_build_packet]
    succeeds exactly when [d] has at most 4096 bytes and request id and type
    both fit a signed 32-bit integer; within the size limit an id or type
    outside that range raises [OverflowError]; and what it builds is 9 bytes
    longer than [d]. *)
Theorem build_packet_outcome :
  forall (p : Packet) (d : bytes),
    encoded (data p) = Ok d ->
    ((exists out, _build_packet p = Ok out) <->
     (length d <= 4096)%nat /\ int32 (request_id p)
     /\ int32 (int_of (type p)))
    /\ ((length d <= 4096)%nat ->
        ~ (int32 (request_id p) /\ int32 (int_of (type p))) ->
        _build_packet p = Raise OverflowError)
    /\ (forall out, _build_packet p = Ok out ->
                    length out = (length d + 9)%nat).
Proof.
  intros p d Hd. split; [|split].
  - split.
    + intros [out H]. destruct (build_packet_inv p out H)
        as (d' & Hd' & Hlen & Hi & Ht & _).
      rewrite Hd in Hd'. injection Hd' as <-. tauto.
    + intros (Hlen & Hi & Ht). eexists.
      exact (build_packet_ok p d Hd Hlen Hi Ht).
  - intros Hlen Hno. rewrite (build_packet_cases p d Hd).
    destruct (Nat.ltb_spec 4096 (length d)); [lia|].
    destruct (to_bytes4_signed_cases (request_id p)) as [[Hi ->]|[_ ->]];
      [|reflexivity].
    destruct (to_bytes4_signed_cases (int_of (type p))) as [[Ht ->]|[_ ->]];
      [tauto|reflexivity].
  - intros out H. destruct (build_packet_inv p out H)
      as (d' & Hd' & _ & _ & _ & ->).
    rewrite Hd in Hd'. injection Hd' as <-.
    rewrite !length_app, !le_digits_length. cbn [length]. lia.
Qed.

Lemma build_packet_outcome_witness :
  _build_packet (mkPacket (2 ^ 31) (Enum EXECUTE) (Bytes hi))
  = Raise OverflowError
  /\ length (PyInt.le_digits 4 1 ++ PyInt.le_digits 4 2 ++ hi ++ [x00])
     = (length hi + 9)%nat.
Proof.
  split.
  - destruct (build_packet_outcome
                (mkPacket (2 ^ 31) (Enum EXECUTE) (Bytes hi)) hi eq_refl)
      as (_ & H & _).
    apply H.
    + cbn [length hi]. lia.
    + unfold int32. cbn [request_id]. lia.
  - destruct (build_packet_outcome
                (mkPacket 1 (Int 2) (Bytes hi)) hi eq_refl) as (_ & _ & H).
    apply H. reflexivity.
Defined.

(** ** Requests that cannot be sent *)

Lemma login_unsent (Reader : Type) (read : nat -> Reader -> bytes * Reader)
      (password : str) (c c1 : RCONClient Reader) (e : Exception) :
  _send_text_packet (mkPacket (_i c) (Enum LOGIN) (Str password))
                    (with_i (_i c + 1) c) = (Raise e, c1) ->
  login read password c = (Raise e, with_i (_i c + 1) c).
Proof.
  intro H. pose proof (send_text_packet_raise_keeps Reader _ _ _ _ H) as ->.
  unfold login, bind at 1, take_id at 1. unfold bind at 1. now rewrite H.
Qed.

Lemma execute_unsent (Reader : Type) (read : nat -> Reader -> bytes * Reader)
      (fuel : nat) (command : str) (c c1 : RCONClient Reader)
      (e : Exception) :
  _send_text_packet (mkPacket (_i c) (Enum EXECUTE) (Str command))
                    (with_i (_i c + 1) c) = (Raise e, c1) ->
  execute read fuel command c = Some (Raise e, with_i (_i c + 1) c).
Proof.
  intro H. pose proof (send_text_packet_raise_keeps Reader _ _ _ _ H) as ->.
  unfold execute, take_id. now rewrite H.
Qed.

Lemma send_text_packet_overflow (Reader : Type) (p : Packet) (s : str)
      (c : RCONClient Reader) :
  data p = Str s -> ~ int32 (request_id p) ->
  exists e, _send_text_packet p c = (Raise e, c).
Proof.
  intros Hs Hno. rewrite send_text_packet_cases. unfold must_str. rewrite Hs.
  destruct (PyStr.encode s) as [b|e]; [|now eexists].
  rewrite send_packet_cases. unfold _build_packet.
  cbn [data encoded bindR request_id type].
  destruct (4096 <? length (b ++ [x00]))%nat; [now eexists|].
  destruct (to_bytes4_signed_cases (request_id p)) as [[Hi _]|[_ ->]];
    [contradiction|now eexists].
Qed.

(** X5: when the counter has left the signed 32-bit range, [login] and
    [execute] with text that could otherwise be sent raise [OverflowError]
    before anything is written or read; the counter still goes up by one. *)
Theorem counter_overflow :
  forall (Reader : Type) (read : nat -> Reader -> bytes * Reader)
         (fuel : nat) (text : str) (e : bytes) (c : RCONClient Reader),
    PyStr.encode text = Ok e -> (length e <= 4095)%nat -> ~ int32 (_i c) ->
    login read text c = (Raise OverflowError, with_i (_i c + 1) c)
    /\ execute read fuel text c
       = Some (Raise OverflowError, with_i (_i c + 1) c).
Proof.
  intros Reader read fuel text e c He Hlen Hno.
  assert (S : forall t,
             _send_text_packet (mkPacket (_i c) t (Str text))
                               (with_i (_i c + 1) c)
             = (Raise OverflowError, with_i (_i c + 1) c)).
  { intro t. rewrite send_text_packet_cases. unfold must_str.
    cbn [data]. rewrite He. rewrite send_packet_cases.
    unfold _build_packet. cbn [data encoded bindR request_id type].
    rewrite length_app. cbn [length].
    destruct (Nat.ltb_spec 4096 (length e + 1)); [lia|].
    destruct (to_bytes4_signed_cases (_i c)) as [[Hi _]|[_ ->]];
      [contradiction|reflexivity]. }
  split.
  - exact (login_unsent Reader read text c _ _ (S (Enum LOGIN))).
  - exact (execute_unsent Reader read fuel text c _ _ (S (Enum EXECUTE))).
Qed.

Lemma counter_overflow_witness :
  login stream_read secret (client_on (2 ^ 31) (server_frame 0 0 []))
  = (Raise OverflowError, client_on (2 ^ 31 + 1) (server_frame 0 0 []))
  /\ execute stream_read 1 secret (client_on (2 ^ 31) (server_frame 0 0 []))
     = Some (Raise OverflowError,
             client_on (2 ^ 31 + 1) (server_frame 0 0 [])).
Proof.
  apply (counter_overflow Stream stream_read 1 secret
           [x73; x65; x63; x72; x65; x74]
           (client_on (2 ^ 31) (server_frame 0 0 []))).
  - reflexivity.
  - cbn [length]. lia.
  - unfold int32. cbn [_i client_on]. lia.
Defined.

(** X6: text whose encoding has 4096 bytes or more is refused by [login] and
    [execute] with "too large data" (reporting the length with the
    terminator) before anything is written or read; the request id is used
    up all the same. *)
Theorem oversized_request :
  forall (Reader : Type) (read : nat -> Reader -> bytes * Reader)
         (fuel : nat) (text : str) (e : bytes) (c : RCONClient Reader),
    PyStr.encode text = Ok e -> (4096 <= length e)%nat ->
    login read text c
    = (Raise (ValueError (TooLargeData (length e + 1))), with_i (_i c + 1) c)
    /\ execute read fuel text c
       = Some (Raise (ValueError (TooLargeData (length e + 1))),
               with_i (_i c + 1) c).
Proof.
  intros Reader read fuel text e c He Hlen. split.
  - apply (login_unsent Reader read text c (with_i (_i c + 1) c)).
    exact (send_text_packet_too_large Reader
             (mkPacket (_i c) (Enum LOGIN) (Str text)) text e
             (with_i (_i c + 1) c) eq_refl He Hlen).
  - apply (execute_unsent Reader read fuel text c (with_i (_i c + 1) c)).
    exact (send_text_packet_too_large Reader
             (mkPacket (_i c) (Enum EXECUTE) (Str text)) text e
             (with_i (_i c + 1) c) eq_refl He Hlen).
Qed.

Lemma oversized_request_witness :
  login stream_read (repeat 97 4096) (client_on 0 hi)
  = (Raise (ValueError (TooLargeData (length (repeat x61 4096) + 1))),
     client_on 1 hi)
  /\ execute stream_read 1 (repeat 97 4096) (client_on 0 hi)
     = Some (Raise (ValueError (TooLargeData (length (repeat x61 4096) + 1))),
             client_on 1 hi).
Proof.
  apply (oversized_request Stream stream_read 1 (repeat 97 4096)
           (repeat x61 4096) (client_on 0 hi)).
  - vm_compute. reflexivity.
  - rewrite repeat_length. lia.
Defined.

(** ** Calls in sequence *)

Lemma after_call_counter (Reader : Type)
      (read : nat -> Reader -> bytes * Reader) (c : RCONClient Reader)
      (k : Call) :
  _i (after_call read c k) = _i c + 1.
Proof.
  destruct k as [password|command]; cbn [after_call].
  - apply login_counter.
  - destruct (execute_counter Reader read 0 command c) as (r & c' & -> & Hi).
    exact Hi.
Qed.

Lemma after_call_unsent (Reader : Type)
      (read : nat -> Reader -> bytes * Reader) (c : RCONClient Reader)
      (k : Call) :
  ~ int32 (_i c) -> after_call read c k = with_i (_i c + 1) c.
Proof.
  intro Hno. destruct k as [password|command]; cbn [after_call].
  - destruct (send_text_packet_overflow Reader
                (mkPacket (_i c) (Enum LOGIN) (Str password)) password
                (with_i (_i c + 1) c) eq_refl Hno) as [e He].
    now rewrite (login_unsent Reader read password c _ e He).
  - destruct (send_text_packet_overflow Reader
                (mkPacket (_i c) (Enum EXECUTE) (Str command)) command
                (with_i (_i c + 1) c) eq_refl Hno) as [e He].
    now rewrite (execute_unsent Reader read 1 command c _ e He).
Qed.

(** X7: every call of [login] or [execute] uses up one request id, whatever
    it returns or raises: after any sequence of calls the counter has grown
    by the number of calls.  A client just constructed and connected starts
    at 0, so its counter is the number of calls made on it. *)
Theorem calls_counter :
  forall (Reader : Type) (read : nat -> Reader -> bytes * Reader)
         (calls : list Call) (c : RCONClient Reader),
    _i (after_calls read calls c) = _i c + Z.of_nat (length calls)
    /\ (forall (h : str) (pt : Z) (r : Reader),
           _i (after_calls read calls (connected h pt r))
           = Z.of_nat (length calls)).
Proof.
  intros Reader read calls.
  assert (G : forall c, _i (after_calls read calls c)
                        = _i c + Z.of_nat (length calls)).
  { unfold after_calls. induction calls as [|k calls IH]; intro c.
    - cbn. lia.
    - cbn [fold_left length]. rewrite IH, after_call_counter. lia. }
  intro c. split; [apply G|].
  intros h pt r. now rewrite G.
Qed.

(** X8: once the counter is 2^31 or more the client never sends again: any
    further sequence of calls leaves the writer and the reader as they were
    and only keeps counting. *)
Theorem counter_exhausted :
  forall (Reader : Type) (read : nat -> Reader -> bytes * Reader)
         (calls : list Call) (c : RCONClient Reader),
    2 ^ 31 <= _i c ->
    after_calls read calls c = with_i (_i c + Z.of_nat (length calls)) c.
Proof.
  intros Reader read calls. unfold after_calls.
  induction calls as [|k calls IH]; intros c Hc.
  - cbn. destruct c. unfold with_i. cbn. f_equal. lia.
  - cbn [fold_left length].
    rewrite after_call_unsent by (unfold int32; lia).
    rewrite IH by (cbn [_i with_i]; lia).
    unfold with_i. cbn. f_equal. lia.
Qed.

Lemma counter_exhausted_witness :
  after_calls stream_read [CallLogin secret; CallExecute help]
    (client_on (2 ^ 31) (server_frame 0 0 []))
  = with_i (2 ^ 31 + 2) (client_on (2 ^ 31) (server_frame 0 0 [])).
Proof.
  apply (counter_exhausted Stream stream_read
           [CallLogin secret; CallExecute help]
           (client_on (2 ^ 31) (server_frame 0 0 []))).
  cbn [_i client_on]. lia.
Defined.

(** ** What is received *)

Lemma recv_text_packet_shape (Reader : Type)
      (read : nat -> Reader -> bytes * Reader) (c c' : RCONClient Reader)
      (q : Packet) :
  _recv_text_packet read c = (Ok q, c') ->
  exists d z,
    q = mkPacket (request_id q) (Int z) (Bytes d)
    /\ ~ In x00 d /\ (length d <= 1445)%nat.
Proof.
  rewrite recv_text_packet_eq.
  destruct (_recv_packet read c) as [[p|e] c1] eqn:E; [|discriminate].
  apply recv_packet_inv in E.
  destruct E as (nb & r1 & body & r2 & _ & _ & Hn & _ & Hlen & -> & _).
  cbn [packet_of_body data request_id type].
  pose proof (payload_length body) as Hp.
  destruct (Z.eqb_spec (PyBytes.find_zero (PyBytes.slice_to_last 8 body)) (-1))
    as [Ez|Ez]; [discriminate|].
  destruct (find_zero_split _ Ez) as (pre & suf & Hd & Hpre & Hz).
  rewrite Hz, Nat2Z.id, Hd.
  destruct (firstn_skipn_app pre (x00 :: suf) (length pre) eq_refl) as [-> _].
  intro H. injection H as <- <-.
  exists pre, (PyInt.from_bytes (PyBytes.slice 4 8 body) true).
  split; [reflexivity|]. split; [exact Hpre|].
  rewrite Hd, length_app in Hp. cbn [length] in Hp. lia.
Qed.

Lemma execute_ok_output (Reader : Type)
      (read : nat -> Reader -> bytes * Reader) (fuel : nat) (command : str)
      (c c' : RCONClient Reader) (out : bytes) :
  execute read fuel command c = Some (Ok out, c') ->
  ~ In x00 out /\ (length out <= 1445)%nat.
Proof.
  intro H. destruct fuel as [|fuel].
  { unfold execute, take_id in H.
    destruct (_send_text_packet _ _) as [[u|e] c1]; discriminate. }
  destruct (_send_text_packet (mkPacket (_i c) (Enum EXECUTE) (Str command))
                              (with_i (_i c + 1) c)) as [[[]|e] c1] eqn:Hs.
  2:{ unfold execute, take_id in H. rewrite Hs in H. discriminate. }
  destruct (_recv_text_packet read c1) as [[packet|e] c2] eqn:Hr.
  2:{ unfold execute, take_id in H. rewrite Hs in H.
      rewrite execute_loop_once in H. unfold execute_body in H.
      cbn [self_] in H. rewrite Hr in H. discriminate. }
  rewrite (execute_eq Reader read fuel command c c1 c2 packet Hs Hr) in H.
  destruct (recv_text_packet_shape Reader read c1 c2 packet Hr)
    as (d & z & Hq & Hno & Hlen).
  destruct (negb (request_id packet =? _i c)); [discriminate|].
  destruct (negb (int_of (type packet) =? 0)); [discriminate|].
  rewrite Hq in H. cbn [must_bytes data] in H. injection H as <- _.
  now split.
Qed.

Lemma recv_delivered (Reader : Type) (read : nat -> Reader -> bytes * Reader)
      (c : RCONClient Reader) (body : bytes) (r' : Reader) :
  (9 <= length body <= 1455)%nat -> delivers read (_reader c) body r' ->
  _recv_packet read c = (Ok (packet_of_body body), with_reader r' c).
Proof.
  intros Hlen (r1 & H4 & Hb). rewrite recv_packet_eq, H4.
  rewrite le_digits_length. cbn [Nat.eqb negb]. cbv zeta.
  rewrite from_bytes_unsigned by lia.
  destruct (Z.ltb_spec (Z.of_nat (length body)) 9); [lia|].
  destruct (Z.ltb_spec 1455 (Z.of_nat (length body))); [lia|].
  rewrite Nat2Z.id, Hb, Z.eqb_refl. reflexivity.
Qed.

Lemma recv_text_delivered (Reader : Type)
      (read : nat -> Reader -> bytes * Reader) (c : RCONClient Reader)
      (a b d : bytes) (pad : byte) (r' : Reader) :
  length a = 4%nat -> length b = 4%nat -> (length d <= 1446)%nat ->
  delivers read (_reader c) (a ++ b ++ d ++ [pad]) r' ->
  _recv_text_packet read c =
  if PyBytes.find_zero d =? -1 then
    (Raise (ValueError NotZeroTerminated), with_reader r' c)
  else
    (Ok (mkPacket (PyInt.from_bytes a true) (Int (PyInt.from_bytes b true))
                  (Bytes (firstn (Z.to_nat (PyBytes.find_zero d)) d))),
     with_reader r' c).
Proof.
  intros Ha Hb Hd Hdel. rewrite recv_text_packet_eq.
  rewrite (recv_delivered Reader read c (a ++ b ++ d ++ [pad]) r');
    [|rewrite !length_app, Ha, Hb; cbn [length]; lia|exact Hdel].
  rewrite (packet_of_body_fields a b d pad Ha Hb). reflexivity.
Qed.

(** X9: a receive issues two reads, one for the four length bytes and one
    for the declared number of bytes, and leaves the reader where the second
    read left it.  So when two frames are each delivered whole, one after
    the other, two receives return their two packets in order and leave the
    reader past both frames, whatever follows them. *)
Theorem recv_packet_twice :
  forall (Reader : Type) (read : nat -> Reader -> bytes * Reader)
         (c : RCONClient Reader) (body1 body2 : bytes) (r1 r2 : Reader),
    (9 <= length body1 <= 1455)%nat -> (9 <= length body2 <= 1455)%nat ->
    delivers read (_reader c) body1 r1 -> delivers read r1 body2 r2 ->
    bind (_recv_packet read)
         (fun p1 => bind (_recv_packet read) (fun p2 => ret (p1, p2))) c
    = (Ok (packet_of_body body1, packet_of_body body2), with_reader r2 c).
Proof.
  intros Reader read c body1 body2 r1 r2 H1 H2 D1 D2. unfold bind.
  rewrite (recv_delivered Reader read c body1 r1 H1 D1).
  rewrite (recv_delivered Reader read (with_reader r1 c) body2 r2 H2 D2).
  reflexivity.
Qed.

Lemma recv_packet_twice_witness :
  bind (_recv_packet stream_read)
       (fun p1 => bind (_recv_packet stream_read) (fun p2 => ret (p1, p2)))
       (client_on 0 (frame_unterminated ++ frame_hi x2a ++ hi))
  = (Ok (packet_of_body (skipn 4 frame_unterminated),
         packet_of_body (skipn 4 (frame_hi x2a))),
     with_reader hi (client_on 0 (frame_unterminated ++ frame_hi x2a ++ hi))).
Proof.
  apply (recv_packet_twice Stream stream_read
           (client_on 0 (frame_unterminated ++ frame_hi x2a ++ hi))
           (skipn 4 frame_unterminated) (skipn 4 (frame_hi x2a))
           (frame_hi x2a ++ hi) hi).
  - cbn [length skipn frame_unterminated PyInt.le_digits app]. lia.
  - cbn [length skipn frame_hi PyInt.le_digits app]. lia.
  - exists (skipn 4 frame_unterminated ++ frame_hi x2a ++ hi).
    split; reflexivity.
  - exists (skipn 4 (frame_hi x2a) ++ hi). split; reflexivity.
Defined.

(** X10: a packet returned by [_recv_text_packet] has an [int] type, and a
    payload of bytes that contains no zero byte and has at most 1445 bytes
    (1455, less header, pad and the terminator it was cut at); so
    [must_bytes] succeeds on it and [must_str] raises. *)
Theorem recv_text_packet_payload :
  forall (Reader : Type) (read : nat -> Reader -> bytes * Reader)
         (c c' : RCONClient Reader) (q : Packet),
    _recv_text_packet read c = (Ok q, c') ->
    exists d,
      data q = Bytes d /\ ~ In x00 d /\ (length d <= 1445)%nat
      /\ must_bytes q = Ok d
      /\ must_str q = Raise (ValueError DataIsNotStr)
      /\ exists z, type q = Int z.
Proof.
  intros Reader read c c' q H.
  destruct (recv_text_packet_shape Reader read c c' q H)
    as (d & z & Hq & Hno & Hlen).
  exists d. rewrite Hq. cbn [data type must_bytes must_str].
  repeat split; try assumption. now exists z.
Qed.

Lemma recv_text_packet_payload_witness :
  exists d,
    data (mkPacket 7 (Int 0) (Bytes hi)) = Bytes d /\ ~ In x00 d
    /\ (length d <= 1445)%nat
    /\ must_bytes (mkPacket 7 (Int 0) (Bytes hi)) = Ok d
    /\ must_str (mkPacket 7 (Int 0) (Bytes hi))
       = Raise (ValueError DataIsNotStr)
    /\ exists z, type (mkPacket 7 (Int 0) (Bytes hi)) = Int z.
Proof.
  exact (recv_text_packet_payload Stream stream_read
           (client_on 0 (frame_hi x00)) (client_on 0 [])
           (mkPacket 7 (Int 0) (Bytes hi)) eq_refl).
Defined.

(** X11: whatever the server sends, the bytes a successful [execute] returns
    number at most 1445 and include no zero byte. *)
Theorem execute_output_bounds :
  forall (Reader : Type) (read : nat -> Reader -> bytes * Reader)
         (fuel : nat) (command : str) (c c' : RCONClient Reader)
         (out : bytes),
    execute read fuel command c = Some (Ok out, c') ->
    (length out <= 1445)%nat /\ ~ In x00 out.
Proof.
  intros Reader read fuel command c c' out H.
  destruct (execute_ok_output Reader read fuel command c c' out H).
  now split.
Qed.

Lemma execute_output_bounds_witness :
  (length (repeat x41 1445) <= 1445)%nat /\ ~ In x00 (repeat x41 1445).
Proof.
  apply (execute_output_bounds Stream stream_read 1 help
           (client_on 1 (server_frame 1 0 (repeat x41 1445)))
           (awaiting [])).
  vm_compute. reflexivity.
Defined.

(** X12: the caller in [on_modal] never reaches its branch for responses
    longer than 2000 bytes: for what [execute] returned it adds a reaction
    when the response is empty, and otherwise removes the section signs and
    decodes, answering with the text or ending in the decoder's exception. *)
Theorem reply_to_execute :
  forall (Reader : Type) (read : nat -> Reader -> bytes * Reader)
         (fuel : nat) (command : str) (c c' : RCONClient Reader)
         (out : bytes),
    execute read fuel command c = Some (Ok out, c') ->
    (forall r : bytes, reply out <> Ok (RespondAttachment r))
    /\ reply out = match out with
                   | [] => Ok AddReaction
                   | _ =>
                       text <- PyText.decode (PyText.remove_section_sign out) ;;
                       Ok (RespondText text)
                   end.
Proof.
  intros Reader read fuel command c c' out H.
  destruct (execute_ok_output Reader read fuel command c c' out H) as [_ Hlen].
  assert (E : reply out = match out with
                          | [] => Ok AddReaction
                          | _ =>
                              text <- PyText.decode
                                        (PyText.remove_section_sign out) ;;
                              Ok (RespondText text)
                          end).
  { unfold reply. destruct out as [|b out]; [reflexivity|].
    cbn [length Nat.eqb].
    destruct (Nat.ltb_spec 2000 (S (length out)));
      [cbn [length] in Hlen; lia|reflexivity]. }
  split; [|exact E].
  intros r. rewrite E. destruct out as [|b out]; [discriminate|].
  destruct (PyText.decode (PyText.remove_section_sign (b :: out)));
    discriminate.
Qed.

Lemma reply_to_execute_witness :
  reply [xc2; xa7; x68; x69] = Ok (RespondText [104; 105])
  /\ reply [xff] = Raise UnicodeDecodeError.
Proof.
  split.
  - apply (reply_to_execute Stream stream_read 1 help
             (client_on 1 (server_frame 1 0 [xc2; xa7; x68; x69]))
             (awaiting [])).
    reflexivity.
  - apply (reply_to_execute Stream stream_read 1 help
             (client_on 1 (server_frame 1 0 [xff])) (awaiting [])).
    reflexivity.
Defined.

(** ** Whole exchanges *)

Lemma execute_recv_raises (Reader : Type)
      (read : nat -> Reader -> bytes * Reader) (fuel : nat) (command : str)
      (c c1 c2 : RCONClient Reader) (e : Exception) :
  _send_text_packet (mkPacket (_i c) (Enum EXECUTE) (Str command))
                    (with_i (_i c + 1) c) = (Ok tt, c1) ->
  _recv_text_packet read c1 = (Raise e, c2) ->
  execute read (S fuel) command c = Some (Raise e, c2).
Proof.
  intros Hs Hr. unfold execute, take_id. rewrite Hs, execute_loop_once.
  unfold execute_body. cbn [self_]. now rewrite Hr.
Qed.

Lemma request_sent (Reader : Type) (t : PacketType) (text : str) (e : bytes)
      (c : RCONClient Reader) :
  PyStr.encode text = Ok e -> (length e <= 4095)%nat -> int32 (_i c) ->
  _send_text_packet (mkPacket (_i c) (Enum t) (Str text))
                    (with_i (_i c + 1) c)
  = (Ok tt,
     mkClient (_i c + 1) (host c) (port c) (_reader c)
       (_writer c ++ PyInt.le_digits 4 (Z.of_nat (length e) + 10)
        ++ PyInt.le_digits 4 (_i c) ++ PyInt.le_digits 4 (value t)
        ++ e ++ [x00; x00])).
Proof.
  intros He Hlen Hi.
  apply (send_text_packet_ok Reader (mkPacket (_i c) (Enum t) (Str text))
           text e (with_i (_i c + 1) c) eq_refl He Hlen Hi).
  destruct t; vm_compute; split; (discriminate || reflexivity).
Qed.

(** X13: a whole [execute], for any transport: when the response frame is
    delivered whole (its length in one read, its body in the next) and
    carries the request's id, type 0 and a payload with a zero byte in it,
    the call returns the payload up to its first zero byte (what follows it
    in the frame is dropped, whatever the pad byte), has written the request
    frame with the old counter as id and type 2, leaves the reader where the
    second read left it and the counter one higher. *)
Theorem execute_exchange :
  forall (Reader : Type) (read : nat -> Reader -> bytes * Reader)
         (fuel : nat) (command : str) (e : bytes) (c : RCONClient Reader)
         (pre suf : bytes) (pad : byte) (r' : Reader),
    PyStr.encode command = Ok e -> (length e <= 4095)%nat -> int32 (_i c) ->
    ~ In x00 pre -> (length pre + length suf <= 1445)%nat ->
    delivers read (_reader c)
      (PyInt.le_digits 4 (_i c) ++ PyInt.le_digits 4 (value RESPONSE)
       ++ (pre ++ x00 :: suf) ++ [pad]) r' ->
    execute read (S fuel) command c
    = Some (Ok pre,
            mkClient (_i c + 1) (host c) (port c) r'
              (_writer c ++ PyInt.le_digits 4 (Z.of_nat (length e) + 10)
               ++ PyInt.le_digits 4 (_i c) ++ PyInt.le_digits 4 (value EXECUTE)
               ++ e ++ [x00; x00])).
Proof.
  intros Reader read fuel command e c pre suf pad r' He Hlen Hi Hpre Hsz Hdel.
  pose proof (request_sent Reader EXECUTE command e c He Hlen Hi) as Hs.
  set (W := _writer c ++ PyInt.le_digits 4 (Z.of_nat (length e) + 10)
            ++ PyInt.le_digits 4 (_i c) ++ PyInt.le_digits 4 (value EXECUTE)
            ++ e ++ [x00; x00]) in *.
  assert (Hr : _recv_text_packet read
                 (mkClient (_i c + 1) (host c) (port c) (_reader c) W)
               = (Ok (mkPacket (_i c) (Int 0) (Bytes pre)),
                  mkClient (_i c + 1) (host c) (port c) r' W)).
  { rewrite (recv_text_delivered Reader read _
               (PyInt.le_digits 4 (_i c))
               (PyInt.le_digits 4 (value RESPONSE)) (pre ++ x00 :: suf) pad r'
               (le_digits_length 4 _) (le_digits_length 4 _));
      [|rewrite length_app; cbn [length]; lia|exact Hdel].
    rewrite (find_zero_first pre suf Hpre).
    destruct (Z.eqb_spec (Z.of_nat (length pre)) (-1)); [lia|].
    rewrite Nat2Z.id.
    destruct (firstn_skipn_app pre (x00 :: suf) (length pre) eq_refl)
      as [-> _].
    rewrite (from_bytes_signed (_i c) Hi).
    now rewrite from_bytes_signed
      by (vm_compute; split; [discriminate|reflexivity]). }
  rewrite (execute_eq Reader read fuel command c _ _ _ Hs Hr).
  cbn [request_id type int_of must_bytes data].
  now rewrite !Z.eqb_refl.
Qed.

Lemma execute_exchange_witness :
  execute stream_read 1 help
    (mkClient 1 [] 25575
       (declared 13 (PyInt.le_digits 4 1 ++ PyInt.le_digits 4 0
                     ++ (hi ++ x00 :: [x21]) ++ [x2a]) ++ [x07]) [])
  = Some (Ok hi,
          mkClient 2 [] 25575 [x07]
            [x0e; x00; x00; x00; x01; x00; x00; x00; x02; x00; x00; x00;
             x68; x65; x6c; x70; x00; x00]).
Proof.
  apply (execute_exchange Stream stream_read 0 help [x68; x65; x6c; x70]
           (mkClient 1 [] 25575
              (declared 13 (PyInt.le_digits 4 1 ++ PyInt.le_digits 4 0
                            ++ (hi ++ x00 :: [x21]) ++ [x2a]) ++ [x07]) [])
           hi [x21] x2a [x07]).
  - reflexivity.
  - cbn [length]. lia.
  - vm_compute. split; [discriminate|reflexivity].
  - intros [E|[E|[]]]; discriminate E.
  - cbn [length hi]. lia.
  - exists ((PyInt.le_digits 4 1 ++ PyInt.le_digits 4 0
             ++ (hi ++ x00 :: [x21]) ++ [x2a]) ++ [x07]).
    split; reflexivity.
Defined.

(** X14: for any transport, a response delivered whole in the layout
    [_build_packet] itself produces, payload and pad byte with no zero byte
    inside the payload, is refused by [execute] with "data is not
    zero-terminated", after the request was written and the frame read. *)
Theorem execute_unterminated :
  forall (Reader : Type) (read : nat -> Reader -> bytes * Reader)
         (fuel : nat) (command : str) (e : bytes) (c : RCONClient Reader)
         (d : bytes) (pad : byte) (r' : Reader),
    PyStr.encode command = Ok e -> (length e <= 4095)%nat -> int32 (_i c) ->
    ~ In x00 d -> (length d <= 1446)%nat ->
    delivers read (_reader c)
      (PyInt.le_digits 4 (_i c) ++ PyInt.le_digits 4 (value RESPONSE)
       ++ d ++ [pad]) r' ->
    execute read (S fuel) command c
    = Some (Raise (ValueError NotZeroTerminated),
            mkClient (_i c + 1) (host c) (port c) r'
              (_writer c ++ PyInt.le_digits 4 (Z.of_nat (length e) + 10)
               ++ PyInt.le_digits 4 (_i c) ++ PyInt.le_digits 4 (value EXECUTE)
               ++ e ++ [x00; x00])).
Proof.
  intros Reader read fuel command e c d pad r' He Hlen Hi Hd Hsz Hdel.
  pose proof (request_sent Reader EXECUTE command e c He Hlen Hi) as Hs.
  set (W := _writer c ++ PyInt.le_digits 4 (Z.of_nat (length e) + 10)
            ++ PyInt.le_digits 4 (_i c) ++ PyInt.le_digits 4 (value EXECUTE)
            ++ e ++ [x00; x00]) in *.
  assert (Hr : _recv_text_packet read
                 (mkClient (_i c + 1) (host c) (port c) (_reader c) W)
               = (Raise (ValueError NotZeroTerminated),
                  mkClient (_i c + 1) (host c) (port c) r' W)).
  { rewrite (recv_text_delivered Reader read
               (mkClient (_i c + 1) (host c) (port c) (_reader c) W)
               (PyInt.le_digits 4 (_i c))
               (PyInt.le_digits 4 (value RESPONSE)) d pad r'
               (le_digits_length 4 _) (le_digits_length 4 _) Hsz Hdel).
    apply find_zero_absent in Hd. now rewrite Hd. }
  exact (execute_recv_raises Reader read fuel command c _ _ _ Hs Hr).
Qed.

Lemma execute_unterminated_witness :
  execute stream_read 1 help
    (mkClient 1 [] 25575
       (declared 11 (PyInt.le_digits 4 1 ++ PyInt.le_digits 4 0
                     ++ hi ++ [x00]) ++ [x07]) [])
  = Some (Raise (ValueError NotZeroTerminated),
          mkClient 2 [] 25575 [x07]
            [x0e; x00; x00; x00; x01; x00; x00; x00; x02; x00; x00; x00;
             x68; x65; x6c; x70; x00; x00]).
Proof.
  apply (execute_unterminated Stream stream_read 0 help [x68; x65; x6c; x70]
           (mkClient 1 [] 25575
              (declared 11 (PyInt.le_digits 4 1 ++ PyInt.le_digits 4 0
                            ++ hi ++ [x00]) ++ [x07]) [])
           hi x00 [x07]).
  - reflexivity.
  - cbn [length]. lia.
  - vm_compute. split; [discriminate|reflexivity].
  - intros [E|[E|[]]]; discriminate E.
  - cbn [length hi]. lia.
  - exists ((PyInt.le_digits 4 1 ++ PyInt.le_digits 4 0 ++ hi ++ [x00])
            ++ [x07]).
    split; reflexivity.
Defined.

Lemma login_eq (Reader : Type) (read : nat -> Reader -> bytes * Reader)
      (password : str) (c c1 c2 : RCONClient Reader) (p : Packet) :
  _send_text_packet (mkPacket (_i c) (Enum LOGIN) (Str password))
                    (with_i (_i c + 1) c) = (Ok tt, c1) ->
  _recv_packet read c1 = (Ok p, c2) ->
  login read password c =
  (if request_id p =? _i c then Ok tt
   else Raise (ValueError (InvalidRequestID (_i c) (request_id p))), c2).
Proof.
  intros Hs Hr. unfold login, bind at 1, take_id at 1. unfold bind at 1.
  rewrite Hs. unfold bind. rewrite Hr.
  now destruct (request_id p =? _i c).
Qed.

Lemma login_recv_raises (Reader : Type)
      (read : nat -> Reader -> bytes * Reader) (password : str)
      (c c1 c2 : RCONClient Reader) (e : Exception) :
  _send_text_packet (mkPacket (_i c) (Enum LOGIN) (Str password))
                    (with_i (_i c + 1) c) = (Ok tt, c1) ->
  _recv_packet read c1 = (Raise e, c2) ->
  login read password c = (Raise e, c2).
Proof.
  intros Hs Hr. unfold login, bind at 1, take_id at 1. unfold bind at 1.
  rewrite Hs. unfold bind. now rewrite Hr.
Qed.

(** X15: a whole [login], for any transport: when the response frame, of at
    most 1446 payload bytes, is delivered whole, the call has written the
    request frame with the old counter as id and type 3, leaves the reader
    where the second read left it, and returns or raises by the frame's first
    four body bytes alone: its type, payload (terminated or not, empty or
    not) and pad byte are not looked at. *)
Theorem login_exchange :
  forall (Reader : Type) (read : nat -> Reader -> bytes * Reader)
         (password : str) (e : bytes) (c : RCONClient Reader)
         (a b d : bytes) (pad : byte) (r' : Reader),
    PyStr.encode password = Ok e -> (length e <= 4095)%nat -> int32 (_i c) ->
    length a = 4%nat -> length b = 4%nat -> (length d <= 1446)%nat ->
    delivers read (_reader c) (a ++ b ++ d ++ [pad]) r' ->
    login read password c
    = (if PyInt.from_bytes a true =? _i c then Ok tt
       else Raise (ValueError
                     (InvalidRequestID (_i c) (PyInt.from_bytes a true))),
       mkClient (_i c + 1) (host c) (port c) r'
         (_writer c ++ PyInt.le_digits 4 (Z.of_nat (length e) + 10)
          ++ PyInt.le_digits 4 (_i c) ++ PyInt.le_digits 4 (value LOGIN)
          ++ e ++ [x00; x00])).
Proof.
  intros Reader read password e c a b d pad r' He Hlen Hi Ha Hb Hd Hdel.
  pose proof (request_sent Reader LOGIN password e c He Hlen Hi) as Hs.
  set (W := _writer c ++ PyInt.le_digits 4 (Z.of_nat (length e) + 10)
            ++ PyInt.le_digits 4 (_i c) ++ PyInt.le_digits 4 (value LOGIN)
            ++ e ++ [x00; x00]) in *.
  assert (Hr : _recv_packet read
                 (mkClient (_i c + 1) (host c) (port c) (_reader c) W)
               = (Ok (mkPacket (PyInt.from_bytes a true)
                               (Int (PyInt.from_bytes b true)) (Bytes d)),
                  mkClient (_i c + 1) (host c) (port c) r' W)).
  { rewrite (recv_delivered Reader read _ (a ++ b ++ d ++ [pad]) r');
      [|rewrite !length_app, Ha, Hb; cbn [length]; lia|exact Hdel].
    now rewrite (packet_of_body_fields a b d pad Ha Hb). }
  exact (login_eq Reader read password c _ _ _ Hs Hr).
Qed.

Lemma login_exchange_witness :
  login stream_read secret
    (mkClient 0 [] 25575
       (declared 9 (PyInt.le_digits 4 0 ++ PyInt.le_digits 4 77 ++ []
                    ++ [x2a]) ++ hi) [])
  = (Ok tt,
     mkClient 1 [] 25575 hi
       [x10; x00; x00; x00; x00; x00; x00; x00; x03; x00; x00; x00;
        x73; x65; x63; x72; x65; x74; x00; x00]).
Proof.
  apply (login_exchange Stream stream_read secret
           [x73; x65; x63; x72; x65; x74]
           (mkClient 0 [] 25575
              (declared 9 (PyInt.le_digits 4 0 ++ PyInt.le_digits 4 77 ++ []
                           ++ [x2a]) ++ hi) [])
           (PyInt.le_digits 4 0) (PyInt.le_digits 4 77) [] x2a hi).
  - reflexivity.
  - cbn [length]. lia.
  - vm_compute. split; [discriminate|reflexivity].
  - reflexivity.
  - reflexivity.
  - cbn [length]. lia.
  - exists ((PyInt.le_digits 4 0 ++ PyInt.le_digits 4 77 ++ [] ++ [x2a])
            ++ hi).
    split; reflexivity.
Defined.

(** ** Decoding, then encoding again *)

Lemma byte_of_eq (z : Z) (b : byte) : z mod 256 = byte_val b -> byte_of z = b.
Proof.
  intro H. unfold byte_of. rewrite H. unfold byte_val.
  now rewrite N2Z.id, Byte.of_to_N.
Qed.

Lemma le_digits_value (bs : bytes) (m : Z) :
  PyInt.le_digits (length bs)
                  (PyInt.le_value bs + m * 256 ^ Z.of_nat (length bs)) = bs.
Proof.
  revert m. induction bs as [|b bs IH]; intro m; [reflexivity|].
  cbn [length PyInt.le_digits PyInt.le_value].
  rewrite Nat2Z.inj_succ, Z.pow_succ_r by lia.
  pose proof (byte_val_range b) as Hb.
  set (X := PyInt.le_value bs + m * 256 ^ Z.of_nat (length bs)).
  replace (byte_val b + 256 * PyInt.le_value bs
           + m * (256 * 256 ^ Z.of_nat (length bs)))
    with (byte_val b + X * 256) by (unfold X; ring).
  f_equal.
  - apply byte_of_eq. rewrite Z_mod_plus_full. now apply Z.mod_small.
  - rewrite Z.div_add by lia. rewrite Z.div_small by lia. apply IH.
Qed.

Lemma from_bytes_signed_digits (a : bytes) :
  length a = 4%nat ->
  int32 (PyInt.from_bytes a true)
  /\ PyInt.le_digits 4 (PyInt.from_bytes a true) = a.
Proof.
  intro Ha. unfold PyInt.from_bytes. rewrite Ha.
  change (8 * Z.of_nat 4) with 32. change (32 - 1) with 31.
  cbn [andb Z.ltb Z.compare].
  pose proof (le_value_range a) as Hr. rewrite Ha in Hr.
  change (256 ^ Z.of_nat 4) with (2 ^ 32) in Hr.
  destruct (Z.leb_spec (2 ^ 31) (PyInt.le_value a)); split.
  - unfold int32. lia.
  - pose proof (le_digits_value a (-1)) as E. rewrite Ha in E.
    change (256 ^ Z.of_nat 4) with (2 ^ 32) in E.
    replace (PyInt.le_value a - 2 ^ 32)
      with (PyInt.le_value a + -1 * 2 ^ 32) by ring. exact E.
  - unfold int32. lia.
  - pose proof (le_digits_value a 0) as E. rewrite Ha in E.
    now rewrite Z.mul_0_l, Z.add_0_r in E.
Qed.

(** X16: decoding and encoding again gives the frame body back: for a body
    of 9 to 4105 bytes that ends in a zero pad byte, [_build_packet] applied
    to the packet [_recv_packet] makes of it returns that body. *)
Theorem build_packet_of_body :
  forall front : bytes,
    (8 <= length front <= 4104)%nat ->
    _build_packet (packet_of_body (front ++ [x00])) = Ok (front ++ [x00]).
Proof.
  intros front Hlen.
  set (a := firstn 4 front). set (b := firstn 4 (skipn 4 front)).
  set (d := skipn 8 front).
  assert (Hf : front = a ++ b ++ d).
  { unfold a, b, d. change 8%nat with (4 + 4)%nat.
    now rewrite <- skipn_skipn, !firstn_skipn. }
  assert (Ha : length a = 4%nat) by (unfold a; rewrite length_firstn; lia).
  assert (Hb : length b = 4%nat)
    by (unfold b; rewrite length_firstn, length_skipn; lia).
  assert (Hd : (length d <= 4096)%nat) by (unfold d; rewrite length_skipn; lia).
  rewrite Hf, <- !app_assoc, packet_of_body_fields by assumption.
  destruct (from_bytes_signed_digits a Ha) as [Ia Ea].
  destruct (from_bytes_signed_digits b Hb) as [Ib Eb].
  rewrite (build_packet_ok
             (mkPacket (PyInt.from_bytes a true)
                       (Int (PyInt.from_bytes b true)) (Bytes d))
             d eq_refl Hd Ia Ib).
  cbn [request_id type int_of]. now rewrite Ea, Eb.
Qed.

Lemma build_packet_of_body_witness :
  _build_packet (packet_of_body ((PyInt.le_digits 4 (-1)
                                  ++ PyInt.le_digits 4 3 ++ hi) ++ [x00]))
  = Ok ((PyInt.le_digits 4 (-1) ++ PyInt.le_digits 4 3 ++ hi) ++ [x00]).
Proof.
  apply (build_packet_of_body (PyInt.le_digits 4 (-1)
                               ++ PyInt.le_digits 4 3 ++ hi)).
  cbn [length PyInt.le_digits app hi]. lia.
Defined.

(** X17: when the connection is closed with fewer than four bytes left to
    read, [_recv_packet] raises "incorrect packet: got ... bytes, expected 4
    as length" with the number of bytes it got; so a [login] or [execute]
    on a connection the server has closed has written its request and fails
    with that error for 0 bytes. *)
Theorem recv_packet_end_of_stream :
  forall (fuel : nat) (i : Z) (h : str) (pt : Z) (text : str)
         (e s w : bytes),
    (length s < 4)%nat ->
    _recv_packet stream_read (mkClient i h pt s w)
    = (Raise (ValueError (IncorrectLength (length s))), mkClient i h pt [] w)
    /\ (PyStr.encode text = Ok e -> (length e <= 4095)%nat -> int32 i ->
        fst (login stream_read text (mkClient i h pt [] w))
        = Raise (ValueError (IncorrectLength 0))
        /\ option_map fst
             (execute stream_read (S fuel) text (mkClient i h pt [] w))
           = Some (Raise (ValueError (IncorrectLength 0)))).
Proof.
  intros fuel i h pt text e s w Hs.
  assert (R : forall j s' w', (length s' < 4)%nat ->
              _recv_packet stream_read (mkClient j h pt s' w')
              = (Raise (ValueError (IncorrectLength (length s'))),
                 mkClient j h pt [] w')).
  { intros j s' w' Hs'. rewrite recv_packet_eq. cbn [_reader].
    unfold stream_read. rewrite firstn_all2, skipn_all2 by lia.
    destruct (Nat.eqb_spec (length s') 4); [lia|reflexivity]. }
  split; [exact (R i s w Hs)|].
  intros He Hlen Hi.
  set (W := fun t => w ++ PyInt.le_digits 4 (Z.of_nat (length e) + 10)
                     ++ PyInt.le_digits 4 i ++ PyInt.le_digits 4 (value t)
                     ++ e ++ [x00; x00]).
  assert (Hsend : forall t,
             _send_text_packet (mkPacket i (Enum t) (Str text))
                               (mkClient (i + 1) h pt (@nil byte) w)
             = (Ok tt, mkClient (i + 1) h pt (@nil byte) (W t))).
  { intro t.
    apply (send_text_packet_ok Stream (mkPacket i (Enum t) (Str text)) text e
             (mkClient (i + 1) h pt (@nil byte) w) eq_refl He Hlen Hi).
    destruct t; vm_compute; split; (discriminate || reflexivity). }
  assert (Hnil : (@length byte [] < 4)%nat) by (cbn; lia).
  split.
  - now rewrite (login_recv_raises Stream stream_read text
                   (mkClient i h pt (@nil byte) w) _ _ _ (Hsend LOGIN)
                   (R (i + 1) [] (W LOGIN) Hnil)).
  - assert (Hr : _recv_text_packet stream_read
                   (mkClient (i + 1) h pt (@nil byte) (W EXECUTE))
                 = (Raise (ValueError (IncorrectLength 0)),
                    mkClient (i + 1) h pt (@nil byte) (W EXECUTE))).
    { rewrite recv_text_packet_eq.
      pose proof (R (i + 1) [] (W EXECUTE) Hnil) as E.
      match goal with
      | |- (let (r, c') := ?x in _) = _ => replace x with
            (@Raise Packet (ValueError (IncorrectLength 0)),
             mkClient (i + 1) h pt (@nil byte) (W EXECUTE))
      end.
      reflexivity. }
    now rewrite (execute_recv_raises Stream stream_read fuel text
                   (mkClient i h pt (@nil byte) w) _ _ _ (Hsend EXECUTE) Hr).
Qed.

Lemma recv_packet_end_of_stream_witness :
  _recv_packet stream_read (mkClient 0 [] 25575 [x09; x00] [])
  = (Raise (ValueError (IncorrectLength (length [x09; x00]))),
     mkClient 0 [] 25575 [] [])
  /\ fst (login stream_read secret (mkClient 0 [] 25575 [] []))
     = Raise (ValueError (IncorrectLength 0))
  /\ option_map fst (execute stream_read 1 secret (mkClient 0 [] 25575 [] []))
     = Some (Raise (ValueError (IncorrectLength 0))).
Proof.
  split.
  - apply (recv_packet_end_of_stream 0 0 [] 25575 secret
             [x73; x65; x63; x72; x65; x74] [x09; x00] []).
    cbn [length]. lia.
  - destruct (recv_packet_end_of_stream 0 0 [] 25575 secret
                [x73; x65; x63; x72; x65; x74] [] []) as [_ H].
    + cbn [length]. lia.
    + apply H.
      * reflexivity.
      * cbn [length]. lia.
      * vm_compute. split; [discriminate|reflexivity].
Defined.
